(** * hopsworks: login, project selection and logout

    A shallow embedding of [python/hopsworks/__init__.py] (with the exception
    kinds of [python/hopsworks/client/exceptions.py]) as a state-and-exception
    monad over an explicit [World]: the process environment, the working
    directory, the files on disk, the lines waiting on standard input, the
    module-level [_saas_connection] and the sessions the platform holds open.

    The [Connection] class is an external collaborator: what its constructor,
    [get_projects] and [get_project] answer is a parameter ([Platform]). *)

From Stdlib Require Import ZArith Ascii String.
From stdpp Require Import gmap strings list pretty.

Local Open Scope string_scope.
Local Open Scope Z_scope.

(** ** Python strings *)

Module Py.

Definition chr (n : nat) : string := String (ascii_of_nat n) EmptyString.

(** ["\n"] and ["\t"]. *)
Definition nl : string := chr 10.
Definition tab : string := chr 9.

(** [str.isspace] on one character; characters are code points below 256:
    TAB..CR, FS..US, SPACE, NEL and NBSP. *)
Definition isspace (c : ascii) : bool :=
  let n := nat_of_ascii c in
  ((9 <=? n)%nat && (n <=? 13)%nat)
  || ((28 <=? n)%nat && (n <=? 32)%nat)
  || (n =? 133)%nat || (n =? 160)%nat.

Fixpoint lstrip (s : string) : string :=
  match s with
  | String c s' => if isspace c then lstrip s' else s
  | EmptyString => EmptyString
  end.

Fixpoint rstrip (s : string) : string :=
  match s with
  | String c s' =>
      match rstrip s' with
      | EmptyString => if isspace c then EmptyString else String c EmptyString
      | r => String c r
      end
  | EmptyString => EmptyString
  end.

(** [s.strip()] *)
Definition strip (s : string) : string := rstrip (lstrip s).

(** [int(s)] for a [str] argument, base 10.  [None] stands for
    [ValueError].

    The whitespace [int] skips around the number is not that of
    [str.strip]: a character below 128 is skipped when C's [isspace] holds
    of it (TAB..CR and SPACE), so FS..US are not; above, NEL and NBSP are. *)
Definition int_isspace (c : ascii) : bool :=
  let n := nat_of_ascii c in
  ((9 <=? n)%nat && (n <=? 13)%nat)
  || (n =? 32)%nat || (n =? 133)%nat || (n =? 160)%nat.

Fixpoint int_lstrip (s : string) : string :=
  match s with
  | String c s' => if int_isspace c then int_lstrip s' else s
  | EmptyString => EmptyString
  end.

Fixpoint int_rstrip (s : string) : string :=
  match s with
  | String c s' =>
      match int_rstrip s' with
      | EmptyString => if int_isspace c then EmptyString else String c EmptyString
      | r => String c r
      end
  | EmptyString => EmptyString
  end.

(** The default of [sys.get_int_max_str_digits()]: a decimal string with
    more digits is a [ValueError]. *)
Definition int_max_str_digits : Z := 4300.

Definition digit_of (c : ascii) : option Z :=
  let n := nat_of_ascii c in
  if ((48 <=? n)%nat && (n <=? 57)%nat)%bool then Some (Z.of_nat n - 48) else None.

Inductive last_seen := AtStart | AfterDigit | AfterUnderscore.

(** The digits, which single underscores may group; [count] is the number
    of digits read, leading zeros included. *)
Fixpoint digits (acc count : Z) (last : last_seen) (s : string) : option Z :=
  match s with
  | EmptyString =>
      match last with
      | AfterDigit => if count <=? int_max_str_digits then Some acc else None
      | _ => None
      end
  | String c s' =>
      match digit_of c with
      | Some d => digits (acc * 10 + d) (count + 1) AfterDigit s'
      | None =>
          if Ascii.eqb c "_"%char
          then match last with
               | AfterDigit => digits acc count AfterUnderscore s'
               | _ => None
               end
          else None
      end
  end.

(** Whitespace around the number is dropped, then one sign is allowed. *)
Definition int (s : string) : option Z :=
  match int_rstrip (int_lstrip s) with
  | String "-"%char s' => Z.opp <$> digits 0 0 AtStart s'
  | String "+"%char s' => digits 0 0 AtStart s'
  | s' => digits 0 0 AtStart s'
  end.

(** [str(n)] for a non-negative [int]. *)
Definition str (n : nat) : string := pretty n.

End Py.

(** ** Data model *)

(** A project as the platform returns it: [name] and what [get_url()] gives. *)
Record Project := { name : string; get_url : string }.

(** The HTTP response a [RestAPIError] carries. *)
Record Response := { status_code : Z; reason : string; content : string }.

(** The exception kinds of [client/exceptions.py] that this module meets,
    and the built-in ones its calls can raise. *)
Inductive exn :=
| RestAPIError (url : string) (response : Response)
| ProjectException (message : string)
| IOError (message : string)
| EOFError
| IndexError
| TypeError (message : string).

(** The port is the [int] argument, or the [str] read from the environment. *)
Inductive port_val := PortInt (n : Z) | PortStr (s : string).

(** The credential keyword of the constructor: [api_key_value=] (possibly
    [None]) or [api_key_file=]. *)
Inductive credential :=
| ApiKeyValue (v : option string)
| ApiKeyFile (path : string).

(** The arguments of one [Connection.connection(...)] call: none at all
    inside the platform, or host, port and credential. *)
Inductive conn_args :=
| ImplicitArgs
| ExternalArgs (host : string) (port : port_val) (cred : credential).

Record Connection := { conn_id : nat; conn_args_of : conn_args }.

(** The module-level [_saas_connection]: the factory [Connection.connection]
    (the inert placeholder), or a [Connection] instance. *)
Inductive session :=
| Placeholder
| Live (c : Connection).

(** What the process does to the outside, in order. *)
Inductive event :=
| EvPrint (s : string)
| EvInput (prompt : string)
| EvGetpass (prompt : string)
| EvConnect (args : conn_args)
| EvClose (id : nat).

Record World := {
  environ : gmap string string;
  getcwd : string;
  files : gmap string string;
  stdin : list string;
  trace : list event;
  _saas_connection : session;
  created : nat;
  live : gset nat
}.

Definition set_files (f : gmap string string) (w : World) : World :=
  {| environ := environ w; getcwd := getcwd w; files := f; stdin := stdin w;
     trace := trace w; _saas_connection := _saas_connection w;
     created := created w; live := live w |}.

Definition set_stdin (l : list string) (w : World) : World :=
  {| environ := environ w; getcwd := getcwd w; files := files w; stdin := l;
     trace := trace w; _saas_connection := _saas_connection w;
     created := created w; live := live w |}.

Definition emit (e : event) (w : World) : World :=
  {| environ := environ w; getcwd := getcwd w; files := files w; stdin := stdin w;
     trace := trace w ++ [e]; _saas_connection := _saas_connection w;
     created := created w; live := live w |}.

Definition set_saas (s : session) (w : World) : World :=
  {| environ := environ w; getcwd := getcwd w; files := files w; stdin := stdin w;
     trace := trace w; _saas_connection := s;
     created := created w; live := live w |}.

Definition set_live (n : nat) (l : gset nat) (w : World) : World :=
  {| environ := environ w; getcwd := getcwd w; files := files w; stdin := stdin w;
     trace := trace w; _saas_connection := _saas_connection w;
     created := n; live := l |}.

(** The answers of the platform, which may depend on everything that
    happened so far.  [connect] gives the [RestAPIError] the constructor
    raises, if it raises. *)
Record Platform := {
  connect : World -> conn_args -> option (string * Response);
  get_projects : World -> Connection -> (string * Response) + list Project;
  get_project : World -> Connection -> (string * Response) + Project
}.

(** ** The monad of the embedding: state and exceptions *)

Inductive outcome (A : Type) :=
| Return (a : A)
| Raise (e : exn).
Arguments Return {A} a.
Arguments Raise {A} e.

Definition M (A : Type) : Type := World -> outcome A * World.

#[global] Instance M_ret : MRet M := fun A a w => (Return a, w).

#[global] Instance M_bind : MBind M := fun A B f m w =>
  match m w with
  | (Return a, w') => f a w'
  | (Raise e, w') => (Raise e, w')
  end.

Definition raise {A} (e : exn) : M A := fun w => (Raise e, w).

Definition gets {A} (f : World -> A) : M A := fun w => (Return (f w), w).

Definition modify (f : World -> World) : M unit := fun w => (Return tt, f w).

(** [try: m except RestAPIError as e: h e] *)
Definition try_except_RestAPIError {A} (m : M A) (h : string -> Response -> M A) : M A :=
  fun w =>
    match m w with
    | (Raise (RestAPIError u r), w') => h u r w'
    | res => res
    end.

(** ** Built-ins and the external [Connection] *)

Definition print (s : string) : M unit := modify (emit (EvPrint s)).

(** [input(prompt)]: the next line of standard input, [EOFError] at its end. *)
Definition input (prompt : string) : M string := fun w =>
  match stdin w with
  | [] => (Raise EOFError, emit (EvInput prompt) w)
  | line :: rest => (Return line, set_stdin rest (emit (EvInput prompt) w))
  end.

(** [getpass.getpass(prompt=...)] *)
Definition getpass (prompt : string) : M string := fun w =>
  match stdin w with
  | [] => (Raise EOFError, emit (EvGetpass prompt) w)
  | line :: rest => (Return line, set_stdin rest (emit (EvGetpass prompt) w))
  end.

(** [key in os.environ] and [os.environ[key]] *)
Definition in_environ (key : string) (w : World) : bool :=
  bool_decide (is_Some (environ w !! key)).

(** [os.path.exists(path)] *)
Definition path_exists (path : string) : M bool :=
  gets (fun w => bool_decide (is_Some (files w !! path))).

(** [open(path, mode="r")], [read()], [close()] of a file that exists.
    The files of a [World] are regular files the process may read and write:
    an existing path that [open] refuses (a directory, a file without read
    permission), and with it the failure of [file.close()] on [None] in the
    [finally] of line 154, is outside the model. *)
Definition read_file (path : string) : M string := fun w =>
  match files w !! path with
  | Some s => (Return s, w)
  | None => (Raise (IOError ("No such file or directory: " +:+ path)), w)
  end.

(** [os.open(path, O_WRONLY | O_CREAT | O_TRUNC, 0o600)] and [fh.write(s)].
    The working directory is taken to be writable: a refusal of [os.open]
    is outside the model. *)
Definition write_file (path s : string) : M unit :=
  modify (fun w => set_files (<[path := s]> (files w)) w).

(** [os.remove(path)] *)
Definition os_remove (path : string) : M unit := fun w =>
  match files w !! path with
  | Some _ => (Return tt, set_files (delete path (files w)) w)
  | None => (Raise (IOError ("No such file or directory: " +:+ path)), w)
  end.

Section Hopsworks.

Context (hw : Platform).

Definition rest_error {A} (e : string * Response) : outcome A :=
  Raise (RestAPIError e.1 e.2).

(** [_saas_connection(...)]: while [_saas_connection] is the factory, the
    call builds a session (or raises what the platform answers); a
    [Connection] instance is not callable. *)
Definition call_saas_connection (args : conn_args) : M Connection := fun w =>
  match _saas_connection w with
  | Placeholder =>
      let w1 := emit (EvConnect args) w in
      match connect hw w1 args with
      | Some e => (rest_error e, w1)
      | None =>
          (Return {| conn_id := created w; conn_args_of := args |},
           set_live (S (created w)) ({[created w]} ∪ live w) w1)
      end
  | Live _ => (Raise (TypeError "'Connection' object is not callable"), w)
  end.

(** [valid_connection.get_projects()] *)
Definition conn_get_projects (c : Connection) : M (list Project) := fun w =>
  match get_projects hw w c with
  | inl e => (rest_error e, w)
  | inr ps => (Return ps, w)
  end.

(** [_saas_connection.get_project()] *)
Definition conn_get_project (c : Connection) : M Project := fun w =>
  match get_project hw w c with
  | inl e => (rest_error e, w)
  | inr p => (Return p, w)
  end.

(** [_saas_connection.close()] *)
Definition conn_close (c : Connection) : M unit :=
  modify (fun w =>
    set_live (created w) (live w ∖ {[conn_id c]}) (emit (EvClose (conn_id c)) w)).

(** ** [logout] (lines 236-240) *)
Definition logout : M unit :=
  s ← gets _saas_connection;
  match s with
  | Live c => conn_close c
  | Placeholder => mret tt
  end ;;
  modify (set_saas Placeholder).

(** ** [_prompt_project] (lines 197-233) *)

Definition msg_at_least_1 : string :=
  "Invalid input, must be greater than or equal to 1".
Definition msg_from_list : string :=
  "Invalid input, should be an integer from the list of projects.".
Definition msg_enter : string := Py.nl +:+ "Enter project to access: ".

(** Lines 207-208, from [index] on. *)
Fixpoint print_menu (index : nat) (saas_projects : list Project) : M unit :=
  match saas_projects with
  | [] => mret tt
  | p :: rest =>
      print (Py.tab +:+ " (" +:+ Py.str (index + 1) +:+ ") " +:+ name p) ;;
      print_menu (S index) rest
  end.

(** The inner [while True] of lines 209-228.  Every turn reads one line, so
    the loop is a recursion on the lines still waiting on standard input: it
    ends by [return], or by the [EOFError] of [input] when they run out. *)
Fixpoint select_loop (saas_projects : list Project) (lines : list string) : M Project :=
  match lines with
  | [] => _ ← input msg_enter; raise EOFError
  | _ :: lines' =>
      project_index ← input msg_enter;
      match Py.int project_index with
      | Some project_index =>
          if project_index <=? 0
          then print msg_at_least_1 ;; select_loop saas_projects lines'
          else
            match saas_projects !! Z.to_nat (project_index - 1) with
            | Some p => mret p
            | None => print msg_from_list ;; select_loop saas_projects lines'
            end
      | None => print msg_from_list ;; select_loop saas_projects lines'
      end
  end.

(** Lines 230-232. *)
Fixpoint find_by_name (saas_projects : list Project) (project : string) : option Project :=
  match saas_projects with
  | [] => None
  | proj :: rest =>
      if String.eqb (name proj) project then Some proj
      else find_by_name rest project
  end.

Definition _prompt_project (valid_connection : Connection) (project : option string)
  : M Project :=
  saas_projects ← conn_get_projects valid_connection;
  match project with
  | None =>
      if (length saas_projects =? 0)%nat
      then raise (ProjectException "Could not find any project")
      else if (length saas_projects =? 1)%nat
      then match saas_projects !! 0%nat with
           | Some p => mret p
           | None => raise IndexError
           end
      else
        (* the outer [while True] runs its body once: the inner loop is
           left by [return] or by an exception only *)
        print (Py.nl +:+ "Multiple projects found. " +:+ Py.nl) ;;
        print_menu 0 saas_projects ;;
        lines ← gets stdin;
        select_loop saas_projects lines
  | Some project =>
      match find_by_name saas_projects project with
      | Some proj => mret proj
      | None => raise (ProjectException ("Could not find project " +:+ project))
      end
  end.

(** ** [login] (lines 55-194) *)

Definition saas_host : string := "c.app.hopsworks.ai".

Definition msg_logged_in (project_obj : Project) : string :=
  Py.nl +:+ "Logged in to project, explore it here " +:+ get_url project_obj.

Definition is_None {A} (o : option A) : bool :=
  match o with None => true | Some _ => false end.

(** Lines 116-122. *)
Definition env_api_key (api_key_value api_key_file : option string)
    (env : gmap string string) : option string :=
  if is_None api_key_value && is_None api_key_file
     && bool_decide (is_Some (env !! "HOPSWORKS_API_KEY"))
  then env !! "HOPSWORKS_API_KEY" else None.

(** Lines 125-126. *)
Definition resolve_project (project : option string) (env : gmap string string)
  : option string :=
  if is_None project && bool_decide (is_Some (env !! "HOPSWORKS_PROJECT"))
  then env !! "HOPSWORKS_PROJECT" else project.

(** Lines 129-132. *)
Definition resolve_host (host : option string) (env : gmap string string) : string :=
  match host, env !! "HOPSWORKS_HOST" with
  | None, Some h => h
  | None, None => saas_host
  | Some h, _ => h
  end.

(** Lines 135-136: [port == 443] holds of the integer 443 only. *)
Definition port_is_443 (port : port_val) : bool :=
  match port with PortInt n => n =? 443 | PortStr _ => false end.

Definition resolve_port (port : port_val) (env : gmap string string) : port_val :=
  if port_is_443 port
  then match env !! "HOPSWORKS_PORT" with
       | Some p => PortStr p
       | None => port
       end
  else port.

(** Line 140. *)
Definition api_key_path_of (w : World) : string := getcwd w +:+ "/.hw_api_key".

(** Lines 162-167 and 187-188: build the session, bind it to
    [_saas_connection], select the project. *)
Definition connect_and_select (args : conn_args) (project : option string) : M Project :=
  c ← call_saas_connection args;
  modify (set_saas (Live c)) ;;
  _prompt_project c project.

(** Lines 144-171.  [inl] is the early [return project_obj] of line 167;
    [inr api_key] falls through to line 173. *)
Definition key_from_arguments (host : string) (port : port_val)
    (project api_key api_key_value api_key_file : option string) (api_key_path : string)
  : M (Project + option string) :=
  match api_key_value with
  | Some v => mret (inr (Some v))
  | None =>
      match api_key_file with
      | Some f =>
          found ← path_exists f;
          if found : bool
          then k ← read_file f; mret (inr (Some k))
          else raise (IOError ("Could not find api key file on path: " +:+ f))
      | None =>
          found ← path_exists api_key_path;
          if (found : bool) && String.eqb host saas_host
          then
            try_except_RestAPIError
              (project_obj ←
                 connect_and_select (ExternalArgs host port (ApiKeyFile api_key_path)) project;
               print (msg_logged_in project_obj) ;;
               mret (inl project_obj))
              (fun _ _ =>
                 logout ;;
                 os_remove api_key_path ;;
                 mret (inr api_key))
          else mret (inr api_key)
      end
  end.

Definition msg_copy : string :=
  "Copy your Api Key (first register/login): https://c.app.hopsworks.ai/account/api/generated".
Definition msg_paste : string := Py.nl +:+ "Paste it here: ".

(** Lines 173-184. *)
Definition key_from_prompt (host : string) (api_key : option string)
    (api_key_path : string) : M (option string) :=
  if is_None api_key && String.eqb host saas_host
  then
    print msg_copy ;;
    k ← getpass msg_paste;
    write_file api_key_path (Py.strip k) ;;
    mret (Some k)
  else mret api_key.

(** Lines 186-194. *)
Definition login_with_key (host : string) (port : port_val)
    (project api_key : option string) : M Project :=
  project_obj ←
    try_except_RestAPIError
      (connect_and_select (ExternalArgs host port (ApiKeyValue api_key)) project)
      (fun u r => logout ;; raise (RestAPIError u r));
  print (msg_logged_in project_obj) ;;
  mret project_obj.

(** Lines 173-194, once the arguments, the environment and the cache gave
    [api_key]. *)
Definition prompt_then_login (host : string) (port : port_val)
    (project api_key : option string) (api_key_path : string) : M Project :=
  api_key ← key_from_prompt host api_key api_key_path;
  login_with_key host port project api_key.

Definition login (host : option string) (port : port_val) (project : option string)
    (api_key_value api_key_file : option string) : M Project :=
  logout ;;
  env ← gets environ;
  if bool_decide (is_Some (env !! "REST_ENDPOINT"))
  then
    c ← call_saas_connection ImplicitArgs;
    modify (set_saas (Live c)) ;;
    project_obj ← conn_get_project c;
    print (msg_logged_in project_obj) ;;
    mret project_obj
  else
    let api_key := env_api_key api_key_value api_key_file env in
    let project := resolve_project project env in
    let host := resolve_host host env in
    let port := resolve_port port env in
    api_key_path ← gets api_key_path_of;
    r ← key_from_arguments host port project api_key api_key_value api_key_file
          api_key_path;
    match r with
    | inl project_obj => mret project_obj
    | inr api_key => prompt_then_login host port project api_key api_key_path
    end.

End Hopsworks.

(** [login()] with every argument left at its default. *)
Definition default_port : port_val := PortInt 443.

(** ** Auxiliary definitions for the statements *)

(** The world [logout] leaves behind. *)
Definition logout_world (w : World) : World :=
  match _saas_connection w with
  | Live c =>
      set_saas Placeholder
        (set_live (created w) (live w ∖ {[conn_id c]}) (emit (EvClose (conn_id c)) w))
  | Placeholder => set_saas Placeholder w
  end.

(** The message of the [ProjectException] raised over an empty project list. *)
Definition no_project_message (project : option string) : string :=
  match project with
  | None => "Could not find any project"
  | Some n => "Could not find project " +:+ n
  end.

(** Several events appended to the trace at once. *)
Definition add_trace (evs : list event) (w : World) : World :=
  {| environ := environ w; getcwd := getcwd w; files := files w; stdin := stdin w;
     trace := trace w ++ evs; _saas_connection := _saas_connection w;
     created := created w; live := live w |}.

(** What lines 206-208 print for the projects from [index] on. *)
Fixpoint menu_events (index : nat) (saas_projects : list Project) : list event :=
  match saas_projects with
  | [] => []
  | p :: rest =>
      EvPrint (Py.tab +:+ " (" +:+ Py.str (index + 1) +:+ ") " +:+ name p)
      :: menu_events (S index) rest
  end.

(** The events of the three turns of the loop on the lines 0, x, 2. *)
Definition turns_0_x_2 : list event :=
  [EvInput msg_enter; EvPrint msg_at_least_1;
   EvInput msg_enter; EvPrint msg_from_list;
   EvInput msg_enter].

(** Events of the console only: printing and [input]. *)
Definition console (ev : event) : Prop :=
  match ev with
  | EvPrint _ | EvInput _ => True
  | _ => False
  end.

(** [w'] is [w] after console traffic only: nothing but the trace and the
    pending input lines differs, and the new events are prints and prompts. *)
Record console_only (w w' : World) : Prop := {
  co_environ : environ w' = environ w;
  co_getcwd : getcwd w' = getcwd w;
  co_files : files w' = files w;
  co_saas : _saas_connection w' = _saas_connection w;
  co_created : created w' = created w;
  co_live : live w' = live w;
  co_trace : ∃ evs, trace w' = (trace w ++ evs)%list ∧ Forall console evs
}.

(** The world right after the constructor succeeded and its result was bound
    to [_saas_connection]. *)
Definition connected (args : conn_args) (w : World) : World :=
  set_saas (Live {| conn_id := created w; conn_args_of := args |})
    (set_live (S (created w)) ({[created w]} ∪ live w) (emit (EvConnect args) w)).

(** The two ways [connect_and_select] can go from a world whose
    [_saas_connection] is the placeholder: the constructor raises, or the
    session is opened and the selector runs on the console. *)
Inductive attempt (hw : Platform) (args : conn_args) (project : option string)
    (w : World) : outcome Project → World → Prop :=
| attempt_refused u resp :
    connect hw (emit (EvConnect args) w) args = Some (u, resp) →
    attempt hw args project w (Raise (RestAPIError u resp)) (emit (EvConnect args) w)
| attempt_opened r w' :
    connect hw (emit (EvConnect args) w) args = None →
    _prompt_project hw {| conn_id := created w; conn_args_of := args |} project
      (connected args w) = (r, w') →
    attempt hw args project w r w'.

(** The file writes of line 171 and of lines 180-184. *)
Definition cache_removed (path : string) (w : World) : World :=
  set_files (delete path (files w)) w.

Definition cache_written (path key : string) (w : World) : World :=
  set_files (<[path := Py.strip key]> (files w)) w.

(** The world after the prompt of lines 174-177 was answered by [line]. *)
Definition prompted (rest : list string) (w : World) : World :=
  set_stdin rest (emit (EvGetpass msg_paste) (emit (EvPrint msg_copy) w)).

(** Since [w] no session was left behind in [w']: [_saas_connection] is the
    placeholder and every session open in [w'] was already open in [w]. *)
Definition torn_down (w w' : World) : Prop :=
  _saas_connection w' = Placeholder ∧ live w' ⊆ live w ∧ (created w ≤ created w')%nat.

(** Since [w] a session was opened and is still bound and open in [w']. *)
Definition session_left (w w' : World) : Prop :=
  ∃ c, _saas_connection w' = Live c ∧ conn_id c ∈ live w' ∧ (created w ≤ conn_id c)%nat.

(** ** The precedence rules in the words of the specification *)

(** Argument, then environment variable, then default. *)
Definition highest_precedence {A} (argument env_var : option A) (default : A) : A :=
  match argument, env_var with
  | Some a, _ => a
  | None, Some e => e
  | None, None => default
  end.

(** The same without a default. *)
Definition first_present {A} (argument env_var : option A) : option A :=
  match argument with
  | Some a => Some a
  | None => env_var
  end.

Definition spec_host (host : option string) (env : gmap string string) : string :=
  highest_precedence host (env !! "HOPSWORKS_HOST") saas_host.

Definition spec_project (project : option string) (env : gmap string string)
  : option string :=
  first_present project (env !! "HOPSWORKS_PROJECT").

(** A port argument equal to 443 counts as not given. *)
Definition spec_port (port : port_val) (env : gmap string string) : port_val :=
  highest_precedence (if port_is_443 port then None else Some port)
    (PortStr <$> env !! "HOPSWORKS_PORT") (PortInt 443).

(** The key of the arguments ([api_key_value], else the content of
    [api_key_file]), else of the environment. *)
Definition spec_api_key (api_key_value api_key_file : option string)
    (fs env : gmap string string) : option string :=
  match api_key_value, api_key_file with
  | Some v, _ => Some v
  | None, Some f => fs !! f
  | None, None => env !! "HOPSWORKS_API_KEY"
  end.

(** The credential of a constructor call of [login] started in [w]: the
    cached key file, tried first when no key argument is given and the host
    is the default one; or a key by value, which is the key of the arguments
    or environment, and without one the line typed at the prompt (default
    host) or [None] (any other host). *)
Definition credential_resolved (w : World) (host api_key_value api_key_file : option string)
    (cred : credential) : Prop :=
  let h := spec_host host (environ w) in
  match cred with
  | ApiKeyFile f =>
      f = api_key_path_of w ∧ api_key_value = None ∧ api_key_file = None
      ∧ is_Some (files w !! api_key_path_of w) ∧ h = saas_host
  | ApiKeyValue k =>
      match spec_api_key api_key_value api_key_file (files w) (environ w) with
      | Some key => k = Some key
      | None =>
          (h = saas_host ∧ ∃ line rest, stdin w = line :: rest ∧ k = Some line)
          ∨ (h ≠ saas_host ∧ k = None)
      end
  end.

(** Every constructor call goes to the resolved host and port with a
    resolved credential. *)
Definition connects_as (w : World) (host : option string) (port : port_val)
    (api_key_value api_key_file : option string) (ev : event) : Prop :=
  match ev with
  | EvConnect args =>
      ∃ cred, args = ExternalArgs (spec_host host (environ w))
                       (spec_port port (environ w)) cred
              ∧ credential_resolved w host api_key_value api_key_file cred
  | _ => True
  end.

(** The trace of [w'] is the trace of [w] and then events that satisfy [P]. *)
Definition extends (P : event → Prop) (w w' : World) : Prop :=
  ∃ evs, trace w' = (trace w ++ evs)%list ∧ Forall P evs.

(** The first constructor call of [login] outside the platform, in the
    words of the specification: the world in which it is made and its
    arguments, or [None] when [login] ends before any call (the key file is
    missing, or the prompt gets no input).  The call is made right after the
    first [logout], unless the key has to be typed first: then it is made
    after the prompt, with the stripped line written to the cache file.  On
    the default host a cache file, when no key argument is given, goes
    before HOPSWORKS_API_KEY. *)
Definition first_call (w : World) (host : option string) (port : port_val)
    (api_key_value api_key_file : option string) : option (World * conn_args) :=
  let h := spec_host host (environ w) in
  let p := spec_port port (environ w) in
  let path := api_key_path_of w in
  let w0 := logout_world w in
  match api_key_value, api_key_file with
  | Some v, _ => Some (w0, ExternalArgs h p (ApiKeyValue (Some v)))
  | None, Some f =>
      match files w !! f with
      | Some k => Some (w0, ExternalArgs h p (ApiKeyValue (Some k)))
      | None => None
      end
  | None, None =>
      if String.eqb h saas_host
      then
        if bool_decide (is_Some (files w !! path))
        then Some (w0, ExternalArgs h p (ApiKeyFile path))
        else
          match environ w !! "HOPSWORKS_API_KEY", stdin w with
          | Some e, _ => Some (w0, ExternalArgs h p (ApiKeyValue (Some e)))
          | None, line :: rest =>
              Some (cache_written path line (prompted rest w0),
                    ExternalArgs h p (ApiKeyValue (Some line)))
          | None, [] => None
          end
      else Some (w0, ExternalArgs h p (ApiKeyValue (environ w !! "HOPSWORKS_API_KEY")))
  end.

(** How [login] ends once its first attempt, made with [args], gave [r1] in
    [w1]: a project is announced and returned; a [RestAPIError] is re-raised
    after [logout], unless the attempt used the cache file: then the session
    is torn down, the cache file removed, and [login] goes on from there;
    any other exception goes through as it is. *)
Definition after_first_call (path : string) (args : conn_args)
    (r1 : outcome Project) (w1 : World) (r : outcome Project) (w' : World) : Prop :=
  match r1 with
  | Return q => r = Return q ∧ w' = emit (EvPrint (msg_logged_in q)) w1
  | Raise (RestAPIError u resp) =>
      match args with
      | ExternalArgs _ _ (ApiKeyFile _) =>
          extends (λ _, True) (cache_removed path (logout_world w1)) w'
      | _ => r = r1 ∧ w' = logout_world w1
      end
  | Raise e => r = Raise e ∧ w' = w1
  end.


(** The key a credential hands to the platform: the value itself, or the
    content of the key file at the time of the call. *)
Definition key_material (fs : gmap string string) (cred : credential) : option string :=
  match cred with
  | ApiKeyValue v => v
  | ApiKeyFile path => fs !! path
  end.

(** Whether a string begins, or ends, with a whitespace character. *)
Definition first_is_space (s : string) : bool :=
  match s with
  | String c _ => Py.isspace c
  | EmptyString => false
  end.

Fixpoint last_is_space (s : string) : bool :=
  match s with
  | EmptyString => false
  | String c EmptyString => Py.isspace c
  | String _ s' => last_is_space s'
  end.

(** ** A concrete platform and concrete worlds *)

Module Demo.

Definition unauthorized : Response :=
  {| status_code := 401; reason := "Unauthorized"; content := EmptyString |}.

Definition a : Project := {| name := "a"; get_url := "https://c.app.hopsworks.ai/p/1" |}.
Definition b : Project := {| name := "b"; get_url := "https://c.app.hopsworks.ai/p/2" |}.
Definition c : Project := {| name := "c"; get_url := "https://c.app.hopsworks.ai/p/3" |}.

(** A platform that accepts one API key and shows the projects [ps]; inside
    the platform the implicit session is always granted. *)
Definition platform (valid : string) (ps : list Project) : Platform :=
  {| connect := fun w args =>
       match args with
       | ImplicitArgs => None
       | ExternalArgs _ _ cred =>
           if bool_decide (key_material (files w) cred = Some valid) then None
           else Some ("https://c.app.hopsworks.ai/hopsworks-api/api/project", unauthorized)
       end;
     get_projects := fun _ _ => inr ps;
     get_project := fun _ _ =>
       match ps with
       | p :: _ => inr p
       | [] => inl ("https://c.app.hopsworks.ai/hopsworks-api/api/project", unauthorized)
       end |}.

Definition forbidden : Response :=
  {| status_code := 403; reason := "Forbidden"; content := EmptyString |}.

(** A platform that grants every session and then refuses to list the
    projects. *)
Definition platform_unlisted : Platform :=
  {| connect := fun _ _ => None;
     get_projects := fun _ _ =>
       inl ("https://c.app.hopsworks.ai/hopsworks-api/api/project", forbidden);
     get_project := fun _ _ =>
       inl ("https://c.app.hopsworks.ai/hopsworks-api/api/project", forbidden) |}.

(** A fresh process in [/home/u]. *)
Definition world (env fs : gmap string string) (lines : list string) : World :=
  {| environ := env; getcwd := "/home/u"; files := fs; stdin := lines; trace := [];
     _saas_connection := Placeholder; created := 0; live := ∅ |}.

Definition cache : string := "/home/u/.hw_api_key".

(** A session, for the selector on its own. *)
Definition conn : Connection :=
  {| conn_id := 0;
     conn_args_of := ExternalArgs saas_host (PortInt 443) (ApiKeyValue (Some "K")) |}.

Definition rest_endpoint : string := "https://hopsworks.glassfish.service.consul:8182".

Definition three : list Project := [a; b; c].

(** No cache, project and port in the environment. *)
Definition world_env : World :=
  world {[ "HOPSWORKS_PROJECT" := "b"; "HOPSWORKS_PORT" := "8181" ]} ∅ [].

(** Nothing set, nothing cached, nothing typed. *)
Definition world_bare : World := world ∅ ∅ [].

(** A stale cache file, and the line [fresh] waiting on standard input. *)
Definition world_stale : World := world ∅ {[ cache := "stale" ]} ["fresh"].

(** The same with HOPSWORKS_API_KEY set. *)
Definition world_stale_env : World :=
  world {[ "HOPSWORKS_API_KEY" := "E" ]} {[ cache := "stale" ]} ["fresh"].

(** No cache; the user pastes the key followed by a blank. *)
Definition world_paste : World := world ∅ ∅ ["K "].

(** The lines 0, x, 2 waiting on standard input. *)
Definition world_0_x_2 : World := world ∅ ∅ ["0"; "x"; "2"].

End Demo.

(** The resolution as the claim words it: for each parameter the argument,
    then the environment variable, then the default, and the key passed by
    value. *)
Definition connects_as_claimed (w : World) (host : option string) (port : port_val)
    (api_key_value : option string) (ev : event) : Prop :=
  match ev with
  | EvConnect args =>
      args = ExternalArgs
               (highest_precedence host (environ w !! "HOPSWORKS_HOST") saas_host)
               (highest_precedence (Some port) (PortStr <$> environ w !! "HOPSWORKS_PORT")
                  (PortInt 443))
               (ApiKeyValue (first_present api_key_value
                               (environ w !! "HOPSWORKS_API_KEY")))
  | _ => True
  end.

(** ** Further definitions: the selection loop and the sessions of a process *)

(** A line that picks the project [p] of the menu: an integer from 1 up to
    the number of projects. *)
Definition valid_choice (saas_projects : list Project) (line : string) (p : Project)
  : Prop :=
  ∃ i, Py.int line = Some i ∧ (1 ≤ i)%Z ∧ saas_projects !! Z.to_nat (i - 1) = Some p.

(** A line that picks nothing: not an integer, below 1, or beyond the list. *)
Definition invalid_choice (saas_projects : list Project) (line : string) : Prop :=
  match Py.int line with
  | Some i => (i ≤ 0)%Z ∨ (Z.of_nat (length saas_projects) < i)%Z
  | None => True
  end.

(** The answer of the loop to a line that picks nothing: the message for an
    entry below 1, else the message for anything else. *)
Definition rejection (line : string) : string :=
  match Py.int line with
  | Some i => if (i <=? 0)%Z then msg_at_least_1 else msg_from_list
  | None => msg_from_list
  end.

(** The events of the turns that reject [lines], one prompt and one message
    each. *)
Definition rejections (lines : list string) : list event :=
  mjoin ((λ line, [EvInput msg_enter; EvPrint (rejection line)]) <$> lines).

Definition msg_multiple : string := Py.nl +:+ "Multiple projects found. " +:+ Py.nl.

(** Every open connection is the one bound to [_saas_connection]. *)
Definition no_leak (w : World) : Prop :=
  ∀ i, i ∈ live w → ∃ c, _saas_connection w = Live c ∧ conn_id c = i.

(** No session is bound and no connection is open. *)
Definition idle (w : World) : Prop :=
  _saas_connection w = Placeholder ∧ ∀ i, i ∉ live w.

(** The exceptions the selector lets through. *)
Definition raised_by_selector (e : exn) : Prop :=
  match e with
  | RestAPIError _ _ | ProjectException _ | EOFError => True
  | IOError _ | IndexError | TypeError _ => False
  end.

(** Further worlds for the instances below. *)
Module Cases.

(** A session left by an earlier [login]. *)
Definition session : Connection :=
  {| conn_id := 7;
     conn_args_of := ExternalArgs saas_host (PortInt 443) (ApiKeyValue (Some "old")) |}.

(** A process in which that session is bound and open. *)
Definition world_bound : World :=
  {| environ := ∅; getcwd := "/home/u"; files := ∅; stdin := []; trace := [];
     _saas_connection := Live session; created := 8; live := {[ 7%nat ]} |}.

(** A process inside the platform. *)
Definition world_inside : World :=
  Demo.world {[ "REST_ENDPOINT" := Demo.rest_endpoint ]} ∅ [].

(** A line that [str.strip] would turn into ["2"] and [int] refuses: the
    separator FS before the digit. *)
Definition fs_2 : string := Py.chr 28 +:+ "2".

(** Three lines that pick nothing of three projects, then 3, then 1. *)
Definition world_retry : World := Demo.world ∅ ∅ ["9"; "no"; fs_2; "3"; "1"].

(** Four lines that pick nothing of three projects. *)
Definition world_rejected : World := Demo.world ∅ ∅ ["0"; "four"; "4"; fs_2].

End Cases.

(** * Properties *)

Local Open Scope list_scope.

Lemma logout_run (w : World) : logout w = (Return tt, logout_world w).
Proof.
  unfold logout, logout_world, mbind, M_bind, gets, modify, conn_close, mret, M_ret.
  destruct (_saas_connection w); reflexivity.
Qed.

Lemma set_saas_same (w : World) : set_saas (_saas_connection w) w = w.
Proof. destruct w; reflexivity. Qed.

(** C9. [logout] never raises; a second [logout] right after the first
    raises nothing and leaves the world as the first left it; after any
    [logout] the session is the placeholder; and [logout] in a world whose
    session is already the placeholder changes nothing. *)
Theorem logout_idempotent (w : World) :
  logout w = (Return tt, (logout w).2)
  ∧ logout (logout w).2 = (Return tt, (logout w).2)
  ∧ _saas_connection (logout w).2 = Placeholder
  ∧ (_saas_connection w = Placeholder → logout w = (Return tt, w)).
Proof.
  rewrite !logout_run. cbn [snd].
  assert (Hp : _saas_connection (logout_world w) = Placeholder).
  { unfold logout_world. destruct (_saas_connection w); reflexivity. }
  repeat split; trivial.
  - f_equal. unfold logout_world at 1. rewrite Hp.
    rewrite <- Hp at 1. apply set_saas_same.
  - intros H. f_equal. unfold logout_world. rewrite H. rewrite <- H at 1. apply set_saas_same.
Qed.

Section Selector.
Context (hw : Platform).

(** C8. With exactly one visible project and no project name, the selector
    returns that project and leaves the world as it was: nothing is printed,
    no prompt is issued and no input line is read. *)
Theorem single_project_without_prompt (c : Connection) (p : Project) (w : World) :
  get_projects hw w c = inr [p] →
  _prompt_project hw c None w = (Return p, w).
Proof.
  intros H. unfold _prompt_project, mbind, M_bind, conn_get_projects. rewrite H. reflexivity.
Qed.

(** C2, as amended. With no visible project the selector always raises a
    [ProjectException] and leaves the world as it was; the message is
    "Could not find any project" when no name is given, and "Could not find
    project" followed by the name when one is given. *)
Theorem empty_list_fails (c : Connection) (project : option string) (w : World) :
  get_projects hw w c = inr [] →
  _prompt_project hw c project w
  = (Raise (ProjectException (no_project_message project)), w).
Proof.
  intros H. unfold _prompt_project, mbind, M_bind, conn_get_projects. rewrite H.
  destruct project; reflexivity.
Qed.

Lemma find_by_name_first (ps : list Project) (n : string) (p : Project) :
  find_by_name ps n = Some p ↔
  ∃ l1 l2, ps = l1 ++ p :: l2 ∧ name p = n ∧ Forall (λ q, name q ≠ n) l1.
Proof.
  induction ps as [|q ps IH]; simpl.
  - split; [discriminate|]. intros (l1 & l2 & H & _). destruct l1; discriminate.
  - destruct (String.eqb_spec (name q) n) as [E|E].
    + split.
      * intros [= ->]. exists [], ps. auto.
      * intros (l1 & l2 & H & Hn & Hl). destruct l1 as [|q' l1]; simplify_eq/=; [done|].
        apply Forall_cons in Hl as [Hq _]. done.
    + rewrite IH. split.
      * intros (l1 & l2 & -> & Hn & Hl). exists (q :: l1), l2. auto.
      * intros (l1 & l2 & H & Hn & Hl). destruct l1 as [|q' l1]; simplify_eq/=.
        apply Forall_cons in Hl as [_ Hl]. eauto.
Qed.

Lemma find_by_name_none (ps : list Project) (n : string) :
  find_by_name ps n = None ↔ Forall (λ q, name q ≠ n) ps.
Proof.
  induction ps as [|q ps IH]; simpl.
  - split; auto.
  - destruct (String.eqb_spec (name q) n) as [E|E].
    + split; [discriminate|]. intros H. apply Forall_cons in H as [H _]. done.
    + rewrite IH. split; [auto|]. intros H. apply Forall_cons in H as [_ H]. done.
Qed.

(** C7. With a project name, the selector returns the first visible project
    whose name is exactly that name (no project before it in the list has
    it); when no visible project has the name it raises a
    [ProjectException] whose message ends with the requested name.  Either
    way the world is left as it was. *)
Theorem named_project_first_match (c : Connection) (n : string) (ps : list Project) (w : World) :
  get_projects hw w c = inr ps →
  (∃ l1 p l2, ps = l1 ++ p :: l2 ∧ name p = n ∧ Forall (λ q, name q ≠ n) l1
              ∧ _prompt_project hw c (Some n) w = (Return p, w))
  ∨ (Forall (λ q, name q ≠ n) ps
     ∧ _prompt_project hw c (Some n) w
       = (Raise (ProjectException ("Could not find project " +:+ n)), w)).
Proof.
  intros H. unfold _prompt_project, mbind, M_bind, conn_get_projects. rewrite H.
  destruct (find_by_name ps n) as [p|] eqn:F.
  - left. apply find_by_name_first in F as (l1 & l2 & ? & ? & ?). exists l1, p, l2. auto.
  - right. apply find_by_name_none in F. auto.
Qed.

Lemma World_eq (w1 w2 : World) :
  environ w1 = environ w2 → getcwd w1 = getcwd w2 → files w1 = files w2 →
  stdin w1 = stdin w2 → trace w1 = trace w2 →
  _saas_connection w1 = _saas_connection w2 → created w1 = created w2 →
  live w1 = live w2 → w1 = w2.
Proof. destruct w1, w2; simpl; intros; by subst. Qed.

Lemma emit_add_trace (e : event) (evs : list event) (w : World) :
  emit e (add_trace evs w) = add_trace (evs ++ [e]) w.
Proof. unfold emit, add_trace; simpl. by rewrite <- app_assoc. Qed.

Lemma emit_as_add_trace (e : event) (w : World) : emit e w = add_trace [e] w.
Proof. reflexivity. Qed.

Lemma add_trace_add_trace (evs1 evs2 : list event) (w : World) :
  add_trace evs2 (add_trace evs1 w) = add_trace (evs1 ++ evs2) w.
Proof. unfold add_trace; simpl. by rewrite <- app_assoc. Qed.

Lemma print_menu_run (ps : list Project) (index : nat) (w : World) :
  print_menu index ps w = (Return tt, add_trace (menu_events index ps) w).
Proof.
  revert index w. induction ps as [|p ps IH]; intros index w; simpl.
  - unfold mret, M_ret, add_trace. rewrite app_nil_r. by destruct w.
  - unfold mbind, M_bind, print, modify. rewrite IH.
    rewrite emit_as_add_trace, add_trace_add_trace. reflexivity.
Qed.

(** One turn of the selection loop. *)
Lemma select_loop_turn (ps : list Project) (l0 line : string) (lines rest : list string)
    (w : World) :
  stdin w = line :: rest →
  select_loop ps (l0 :: lines) w
  = let w1 := set_stdin rest (emit (EvInput msg_enter) w) in
    match Py.int line with
    | Some i =>
        if (i <=? 0)%Z
        then select_loop ps lines (emit (EvPrint msg_at_least_1) w1)
        else match ps !! Z.to_nat (i - 1) with
             | Some p => (Return p, w1)
             | None => select_loop ps lines (emit (EvPrint msg_from_list) w1)
             end
    | None => select_loop ps lines (emit (EvPrint msg_from_list) w1)
    end.
Proof.
  intros Hin. cbn [select_loop]. unfold mbind, M_bind, input. rewrite Hin.
  destruct (Py.int line) as [i|]; [|reflexivity].
  destruct (i <=? 0)%Z; [reflexivity|].
  destruct (ps !! Z.to_nat (i - 1)); reflexivity.
Qed.

(** C6. With at least two visible projects, no project name, and the lines
    0, x, 2 waiting on standard input, the selector prints the menu once,
    prompts three times (two re-prompts: the first after the message for an
    entry below 1, the second after the message for an entry that is not an
    integer), reads exactly those three lines and returns the second
    project of the list. *)
Theorem selector_0_x_2 (c : Connection) (p1 p2 : Project) (ps : list Project)
    (more : list string) (w : World) :
  get_projects hw w c = inr (p1 :: p2 :: ps) →
  stdin w = "0" :: "x" :: "2" :: more →
  _prompt_project hw c None w
  = (Return p2,
     set_stdin more
       (add_trace
          (EvPrint (Py.nl +:+ "Multiple projects found. " +:+ Py.nl)
           :: menu_events 0 (p1 :: p2 :: ps) ++ turns_0_x_2) w)).
Proof.
  intros Hps Hin.
  unfold _prompt_project, mbind, M_bind, conn_get_projects. rewrite Hps.
  cbn [length Nat.eqb]. unfold print, modify, gets.
  rewrite print_menu_run, emit_as_add_trace, add_trace_add_trace.
  cbn [stdin add_trace]. rewrite Hin.
  rewrite (select_loop_turn _ _ "0" _ ("x" :: "2" :: more)) by exact Hin.
  change (Py.int "0") with (Some 0%Z). change (0 <=? 0)%Z with true.
  cbv beta iota zeta.
  rewrite (select_loop_turn _ _ "x" _ ("2" :: more)) by reflexivity.
  change (Py.int "x") with (@None Z). cbv beta iota zeta.
  rewrite (select_loop_turn _ _ "2" _ more) by reflexivity.
  change (Py.int "2") with (Some 2%Z).
  change (2 <=? 0)%Z with false. change (Z.to_nat (2 - 1)) with 1%nat.
  cbv beta iota zeta. cbn [lookup list_lookup].
  f_equal. apply World_eq; try reflexivity.
  cbn [trace set_stdin emit add_trace]. unfold turns_0_x_2.
  rewrite <- !app_assoc. reflexivity.
Qed.

(** *** The selector touches the console only *)

Lemma console_only_refl (w : World) : console_only w w.
Proof. split; try reflexivity. exists []. by rewrite app_nil_r. Qed.

Lemma console_only_trans (w1 w2 w3 : World) :
  console_only w1 w2 → console_only w2 w3 → console_only w1 w3.
Proof.
  intros [? ? ? ? ? ? (e1 & T1 & F1)] [? ? ? ? ? ? (e2 & T2 & F2)].
  split; try congruence.
  exists (e1 ++ e2). split; [|by apply Forall_app].
  rewrite T2, T1. by rewrite <- app_assoc.
Qed.

Lemma console_only_add_trace (evs : list event) (w : World) :
  Forall console evs → console_only w (add_trace evs w).
Proof. intros F. split; try reflexivity. by exists evs. Qed.

Lemma console_only_emit (e : event) (w : World) :
  console e → console_only w (emit e w).
Proof. intros C. apply (console_only_add_trace [e]). by constructor. Qed.

Lemma console_only_set_stdin (l : list string) (w : World) :
  console_only w (set_stdin l w).
Proof. split; try reflexivity. exists []. simpl. by rewrite app_nil_r. Qed.

Lemma menu_events_console (ps : list Project) (index : nat) :
  Forall console (menu_events index ps).
Proof.
  revert index. induction ps as [|p ps IH]; intros index; simpl; constructor; [exact I|apply IH].
Qed.

Lemma input_console_only (prompt : string) (w w' : World) (r : outcome string) :
  input prompt w = (r, w') → console_only w w'.
Proof.
  unfold input. destruct (stdin w); intros [= <- <-].
  - by apply console_only_emit.
  - eapply console_only_trans; [by apply (console_only_emit (EvInput prompt))|].
    apply console_only_set_stdin.
Qed.

Lemma select_loop_console_only (ps : list Project) (lines : list string)
    (w w' : World) (r : outcome Project) :
  select_loop ps lines w = (r, w') → console_only w w'.
Proof.
  revert w. induction lines as [|l lines IH]; intros w; cbn [select_loop];
    unfold mbind, M_bind.
  - destruct (input msg_enter w) as [[line|e] w1] eqn:E; intros [= <- <-];
      by apply input_console_only in E.
  - destruct (input msg_enter w) as [[line|e] w1] eqn:E.
    2:{ intros [= <- <-]. by apply input_console_only in E. }
    apply input_console_only in E.
    assert (Hp : ∀ s, select_loop ps lines (emit (EvPrint s) w1) = (r, w') →
                      console_only w w').
    { intros s Hs. apply IH in Hs. eapply console_only_trans; [exact E|].
      eapply console_only_trans; [|exact Hs]. by apply console_only_emit. }
    destruct (Py.int line) as [i|]; [|apply Hp].
    destruct (i <=? 0)%Z; [apply Hp|].
    destruct (ps !! Z.to_nat (i - 1)); [|apply Hp].
    by intros [= <- <-].
Qed.

Lemma conn_get_projects_same (c : Connection) (w w' : World)
    (r : outcome (list Project)) :
  conn_get_projects hw c w = (r, w') → w' = w.
Proof. unfold conn_get_projects. by destruct (get_projects hw w c); intros [= <- <-]. Qed.

Lemma prompt_project_console_only (c : Connection) (project : option string)
    (w w' : World) (r : outcome Project) :
  _prompt_project hw c project w = (r, w') → console_only w w'.
Proof.
  unfold _prompt_project, mbind, M_bind, conn_get_projects.
  destruct (get_projects hw w c) as [e|ps].
  { intros [= <- <-]. apply console_only_refl. }
  destruct project as [n|].
  { destruct (find_by_name ps n); intros [= <- <-]; apply console_only_refl. }
  destruct (length ps =? 0)%nat.
  { intros [= <- <-]. apply console_only_refl. }
  destruct (length ps =? 1)%nat.
  { destruct (ps !! 0%nat); intros [= <- <-]; apply console_only_refl. }
  unfold print, modify, gets. rewrite print_menu_run.
  intros H. apply select_loop_console_only in H.
  eapply console_only_trans; [|exact H].
  eapply console_only_trans; [|apply console_only_add_trace, menu_events_console].
  by apply console_only_emit.
Qed.

(** A project picked by name has that name. *)
Lemma prompt_project_named (c : Connection) (n : string) (p : Project) (w w' : World) :
  _prompt_project hw c (Some n) w = (Return p, w') → name p = n.
Proof.
  unfold _prompt_project, mbind, M_bind, conn_get_projects.
  destruct (get_projects hw w c) as [e|ps]; [discriminate|].
  destruct (find_by_name ps n) as [q|] eqn:F; [|discriminate].
  intros [= <- <-]. apply find_by_name_first in F as (? & ? & ? & ? & ?). done.
Qed.

End Selector.

(** ** The stages of [login] *)

Section Login.
Context (hw : Platform).

Lemma logout_world_placeholder (w : World) :
  _saas_connection (logout_world w) = Placeholder.
Proof. unfold logout_world. by destruct (_saas_connection w). Qed.

Lemma connect_and_select_attempt (args : conn_args) (project : option string)
    (w w' : World) (r : outcome Project) :
  _saas_connection w = Placeholder →
  connect_and_select hw args project w = (r, w') →
  attempt hw args project w r w'.
Proof.
  intros Hp. unfold connect_and_select, mbind, M_bind, call_saas_connection.
  rewrite Hp. cbv zeta.
  destruct (connect hw (emit (EvConnect args) w) args) as [[u resp]|] eqn:E.
  - intros [= <- <-]. by constructor.
  - unfold modify. intros H. by apply attempt_opened.
Qed.

Lemma key_from_prompt_run (host : string) (api_key : option string) (path : string)
    (w : World) :
  key_from_prompt host api_key path w
  = if is_None api_key && String.eqb host saas_host
    then match stdin w with
         | [] => (Raise EOFError, emit (EvGetpass msg_paste) (emit (EvPrint msg_copy) w))
         | line :: rest => (Return (Some line), cache_written path line (prompted rest w))
         end
    else (Return api_key, w).
Proof.
  unfold key_from_prompt. destruct (is_None api_key && String.eqb host saas_host); [|done].
  unfold mbind, M_bind, print, modify, getpass. cbn [stdin emit].
  destruct (stdin w); reflexivity.
Qed.

Lemma login_with_key_run (host : string) (port : port_val) (project api_key : option string)
    (w : World) :
  login_with_key hw host port project api_key w
  = match connect_and_select hw (ExternalArgs host port (ApiKeyValue api_key)) project w with
    | (Return p, w') => (Return p, emit (EvPrint (msg_logged_in p)) w')
    | (Raise (RestAPIError u r), w') => (Raise (RestAPIError u r), logout_world w')
    | (Raise e, w') => (Raise e, w')
    end.
Proof.
  unfold login_with_key, mbind, M_bind, try_except_RestAPIError.
  destruct (connect_and_select _ _ _ _) as [[p|e] w'].
  - reflexivity.
  - destruct e; try reflexivity. rewrite logout_run. reflexivity.
Qed.

Lemma logout_world_outside (w : World) :
  environ (logout_world w) = environ w ∧ getcwd (logout_world w) = getcwd w
  ∧ files (logout_world w) = files w ∧ stdin (logout_world w) = stdin w
  ∧ created (logout_world w) = created w.
Proof. unfold logout_world. by destruct (_saas_connection w). Qed.

Lemma logout_world_live (w : World) : live (logout_world w) ⊆ live w.
Proof.
  unfold logout_world. destruct (_saas_connection w); simpl; [done|].
  intros x Hx. by apply elem_of_difference in Hx as [? _].
Qed.

Lemma logout_world_trace (w : World) :
  trace (logout_world w)
  = trace w ++ match _saas_connection w with
               | Live c => [EvClose (conn_id c)]
               | Placeholder => []
               end.
Proof.
  unfold logout_world. destruct (_saas_connection w); simpl; [|done].
  by rewrite app_nil_r.
Qed.

(** What an attempt leaves of the world outside the process. *)
Lemma attempt_outside (args : conn_args) (project : option string) (w w' : World)
    (r : outcome Project) :
  attempt hw args project w r w' →
  environ w' = environ w ∧ getcwd w' = getcwd w ∧ files w' = files w.
Proof.
  intros [u resp E|r0 w0 E H]; [done|].
  apply prompt_project_console_only in H as [? ? ? _ _ _ _]. done.
Qed.

(** The events of an attempt: the constructor call, then console traffic. *)
Lemma attempt_trace (args : conn_args) (project : option string) (w w' : World)
    (r : outcome Project) :
  attempt hw args project w r w' →
  ∃ evs, trace w' = trace w ++ EvConnect args :: evs ∧ Forall console evs.
Proof.
  intros [u resp E|r0 w0 E H].
  - by exists [].
  - apply prompt_project_console_only in H as [_ _ _ _ _ _ (evs & T & F)].
    exists evs. split; [|done]. rewrite T. simpl. by rewrite <- app_assoc.
Qed.

(** The session after an attempt: untouched when the constructor raised,
    else the new connection, open. *)
Lemma attempt_session (args : conn_args) (project : option string) (w w' : World)
    (r : outcome Project) :
  attempt hw args project w r w' →
  (is_Some (connect hw (emit (EvConnect args) w) args)
   ∧ (∃ u resp, r = Raise (RestAPIError u resp))
   ∧ _saas_connection w' = _saas_connection w
   ∧ live w' = live w ∧ created w' = created w)
  ∨ (connect hw (emit (EvConnect args) w) args = None
     ∧ _saas_connection w' = Live {| conn_id := created w; conn_args_of := args |}
     ∧ live w' = {[created w]} ∪ live w ∧ created w' = S (created w)).
Proof.
  intros [u resp E|r0 w0 E H].
  - left. rewrite E. eauto 10.
  - right. apply prompt_project_console_only in H as [_ _ _ ? ? ? _]. done.
Qed.

Lemma attempt_named (args : conn_args) (n : string) (w w' : World) (p : Project) :
  attempt hw args (Some n) w (Return p) w' → name p = n.
Proof.
  inversion 1 as [|r0 w0 E Hs]; subst. by apply prompt_project_named in Hs.
Qed.

Lemma key_from_arguments_run (host : string) (port : port_val)
    (project api_key api_key_value api_key_file : option string) (path : string)
    (w : World) :
  _saas_connection w = Placeholder →
  key_from_arguments hw host port project api_key api_key_value api_key_file path w
  = match api_key_value, api_key_file with
    | Some v, _ => (Return (inr (Some v)), w)
    | None, Some f =>
        match files w !! f with
        | Some k => (Return (inr (Some k)), w)
        | None => (Raise (IOError ("Could not find api key file on path: " +:+ f)), w)
        end
    | None, None =>
        if bool_decide (is_Some (files w !! path)) && String.eqb host saas_host
        then match connect_and_select hw (ExternalArgs host port (ApiKeyFile path))
                     project w with
             | (Return p, w1) => (Return (inl p), emit (EvPrint (msg_logged_in p)) w1)
             | (Raise (RestAPIError _ _), w1) =>
                 (Return (inr api_key), cache_removed path (logout_world w1))
             | (Raise e, w1) => (Raise e, w1)
             end
        else (Return (inr api_key), w)
    end.
Proof.
  intros Hp. unfold key_from_arguments.
  destruct api_key_value as [v|]; [done|].
  destruct api_key_file as [f|].
  { unfold mbind, M_bind, path_exists, gets, read_file.
    destruct (files w !! f) eqn:F; cbn.
    - rewrite F. reflexivity.
    - reflexivity. }
  unfold mbind at 1. unfold M_bind at 1. unfold path_exists, gets.
  destruct (bool_decide (is_Some (files w !! path))) eqn:Ex; cbn [andb]; [|done].
  destruct (String.eqb host saas_host); [|done].
  unfold try_except_RestAPIError. unfold mbind at 1. unfold M_bind at 1.
  destruct (connect_and_select _ _ _ _) as [[p|e] w1] eqn:A.
  { reflexivity. }
  apply connect_and_select_attempt in A; [|done].
  apply attempt_outside in A as (_ & _ & Fs).
  destruct e; try reflexivity.
  unfold mbind, M_bind. rewrite logout_run. unfold os_remove.
  destruct (logout_world_outside w1) as (_ & _ & Fl & _).
  apply bool_decide_eq_true in Ex as [k Ex].
  assert (files (logout_world w1) !! path = Some k) as -> by (by rewrite Fl, Fs).
  reflexivity.
Qed.

Lemma prompt_then_login_run (host : string) (port : port_val)
    (project api_key : option string) (path : string) (w : World) :
  prompt_then_login hw host port project api_key path w
  = match key_from_prompt host api_key path w with
    | (Return k', w2) => login_with_key hw host port project k' w2
    | (Raise e, w2) => (Raise e, w2)
    end.
Proof. reflexivity. Qed.

(** [login] outside the platform, stage by stage. *)
Lemma login_external (host : option string) (port : port_val)
    (project api_key_value api_key_file : option string) (w : World) :
  environ w !! "REST_ENDPOINT" = None →
  login hw host port project api_key_value api_key_file w
  = let env := environ w in
    let h := resolve_host host env in
    let p := resolve_port port env in
    let pj := resolve_project project env in
    let path := api_key_path_of w in
    match key_from_arguments hw h p pj (env_api_key api_key_value api_key_file env)
            api_key_value api_key_file path (logout_world w) with
    | (Return (inl project_obj), w1) => (Return project_obj, w1)
    | (Return (inr k), w1) => prompt_then_login hw h p pj k path w1
    | (Raise e, w1) => (Raise e, w1)
    end.
Proof.
  intros Hm. unfold login. unfold mbind at 1. unfold M_bind at 1. rewrite logout_run.
  unfold mbind at 1. unfold M_bind at 1. unfold gets at 1.
  destruct (logout_world_outside w) as (He & Hc & _).
  rewrite He, Hm. rewrite bool_decide_eq_false_2 by (intros [? ?]; discriminate).
  cbv zeta. unfold mbind at 1. unfold M_bind at 1. unfold gets at 1.
  assert (api_key_path_of (logout_world w) = api_key_path_of w) as ->.
  { unfold api_key_path_of. by rewrite Hc. }
  unfold mbind at 1. unfold M_bind at 1.
  destruct (key_from_arguments _ _ _ _ _ _ _ _ _) as [[[p|k]|e] w1]; reflexivity.
Qed.

(** [login] inside the platform. *)
Lemma login_managed (host : option string) (port : port_val)
    (project api_key_value api_key_file : option string) (w : World) :
  is_Some (environ w !! "REST_ENDPOINT") →
  login hw host port project api_key_value api_key_file w
  = let w0 := logout_world w in
    match connect hw (emit (EvConnect ImplicitArgs) w0) ImplicitArgs with
    | Some e => (rest_error e, emit (EvConnect ImplicitArgs) w0)
    | None =>
        let c := {| conn_id := created w0; conn_args_of := ImplicitArgs |} in
        match get_project hw (connected ImplicitArgs w0) c with
        | inl e => (rest_error e, connected ImplicitArgs w0)
        | inr p => (Return p, emit (EvPrint (msg_logged_in p)) (connected ImplicitArgs w0))
        end
    end.
Proof.
  intros Hm. unfold login. unfold mbind at 1. unfold M_bind at 1. rewrite logout_run.
  unfold mbind at 1. unfold M_bind at 1. unfold gets at 1.
  destruct (logout_world_outside w) as (He & _).
  rewrite He. rewrite bool_decide_eq_true_2 by done.
  unfold mbind, M_bind, call_saas_connection. rewrite logout_world_placeholder. cbv zeta.
  destruct (connect hw _ ImplicitArgs) as [e|]; [reflexivity|].
  unfold modify, conn_get_project. fold (connected ImplicitArgs (logout_world w)).
  destruct (get_project hw _ _); reflexivity.
Qed.

(** *** Sessions across the stages *)

Lemma torn_down_logout (w : World) : torn_down w (logout_world w).
Proof.
  split; [apply logout_world_placeholder|]. split; [apply logout_world_live|].
  destruct (logout_world_outside w) as (_ & _ & _ & _ & ->). done.
Qed.







(** *** Where a [RestAPIError] can come from *)

Lemma select_loop_raises (ps : list Project) (lines : list string) (w w' : World)
    (e : exn) :
  select_loop ps lines w = (Raise e, w') → e = EOFError.
Proof.
  revert w. induction lines as [|l lines IH]; intros w; cbn [select_loop];
    unfold mbind, M_bind, input, raise.
  - destruct (stdin w); by intros [= <- <-].
  - destruct (stdin w) as [|line rest]; [by intros [= <- <-]|].
    unfold print, modify.
    destruct (Py.int line) as [i|]; [|apply IH].
    destruct (i <=? 0)%Z; [apply IH|].
    destruct (ps !! Z.to_nat (i - 1)); [discriminate|apply IH].
Qed.

Lemma prompt_project_rest_error (c : Connection) (project : option string)
    (w w' : World) (u : string) (resp : Response) :
  _prompt_project hw c project w = (Raise (RestAPIError u resp), w') →
  w' = w ∧ get_projects hw w c = inl (u, resp).
Proof.
  unfold _prompt_project, mbind, M_bind, conn_get_projects.
  destruct (get_projects hw w c) as [[u' resp']|ps].
  { by intros [= <- <- <-]. }
  destruct project as [n|].
  { destruct (find_by_name ps n); discriminate. }
  destruct (length ps =? 0)%nat; [discriminate|].
  destruct (length ps =? 1)%nat; [destruct (ps !! 0%nat); discriminate|].
  unfold print, modify, gets. rewrite print_menu_run.
  intros H. apply select_loop_raises in H. discriminate.
Qed.

(** An attempt that ends in a [RestAPIError] stopped at the constructor, or
    right after it at [get_projects]: the console was not used. *)
Lemma attempt_rest_error (args : conn_args) (project : option string) (w w' : World)
    (u : string) (resp : Response) :
  attempt hw args project w (Raise (RestAPIError u resp)) w' →
  w' = emit (EvConnect args) w ∨ w' = connected args w.
Proof.
  inversion 1 as [|r0 w0 E Hs]; subst; [by left|].
  apply prompt_project_rest_error in Hs as [-> _]. by right.
Qed.

(** *** The code's resolution against the precedence of the specification *)

Lemma resolve_host_spec (host : option string) (env : gmap string string) :
  resolve_host host env = spec_host host env.
Proof. unfold resolve_host, spec_host, highest_precedence. by destruct host. Qed.

Lemma resolve_project_spec (project : option string) (env : gmap string string) :
  resolve_project project env = spec_project project env.
Proof.
  unfold resolve_project, spec_project, first_present.
  destruct project; [done|]. simpl.
  destruct (env !! "HOPSWORKS_PROJECT") eqn:E; [|done].
  by rewrite bool_decide_eq_true_2.
Qed.

Lemma port_is_443_eq (port : port_val) : port_is_443 port = true → port = PortInt 443.
Proof. destruct port as [n|s]; simpl; [|done]. intros H%Z.eqb_eq. by subst. Qed.

Lemma resolve_port_spec (port : port_val) (env : gmap string string) :
  resolve_port port env = spec_port port env.
Proof.
  unfold resolve_port, spec_port, highest_precedence.
  destruct (port_is_443 port) eqn:E; [|done].
  apply port_is_443_eq in E as ->.
  by destruct (env !! "HOPSWORKS_PORT").
Qed.

Lemma env_api_key_spec (fs env : gmap string string) :
  env_api_key None None env = spec_api_key None None fs env.
Proof.
  unfold env_api_key, spec_api_key. simpl.
  destruct (env !! "HOPSWORKS_API_KEY") eqn:E; [|done].
  by rewrite bool_decide_eq_true_2.
Qed.

(** *** Trace extension *)

Lemma extends_refl (P : event → Prop) (w : World) : extends P w w.
Proof. exists []. by rewrite app_nil_r. Qed.

Lemma extends_trans (P : event → Prop) (w1 w2 w3 : World) :
  extends P w1 w2 → extends P w2 w3 → extends P w1 w3.
Proof.
  intros (e1 & T1 & F1) (e2 & T2 & F2). exists (e1 ++ e2).
  split; [|by apply Forall_app]. rewrite T2, T1. by rewrite <- app_assoc.
Qed.

Lemma extends_emit (P : event → Prop) (e : event) (w : World) :
  P e → extends P w (emit e w).
Proof. intros H. exists [e]. split; [done|by constructor]. Qed.

Lemma extends_same_trace (P : event → Prop) (w w' : World) :
  trace w' = trace w → extends P w w'.
Proof. intros H. exists []. by rewrite app_nil_r. Qed.

Lemma extends_logout (P : event → Prop) (w : World) :
  (∀ i, P (EvClose i)) → extends P w (logout_world w).
Proof.
  intros H. eexists. split; [apply logout_world_trace|].
  destruct (_saas_connection w); by repeat constructor.
Qed.

Lemma extends_attempt (P : event → Prop) (args : conn_args) (project : option string)
    (w w' : World) (r : outcome Project) :
  (∀ ev, console ev → P ev) → P (EvConnect args) →
  attempt hw args project w r w' → extends P w w'.
Proof.
  intros Hc Ha A. apply attempt_trace in A as (evs & T & F).
  exists (EvConnect args :: evs). split; [done|]. constructor; [done|].
  eapply Forall_impl; [exact F|exact Hc].
Qed.

Lemma connects_as_console (w : World) (host : option string) (port : port_val)
    (akv akf : option string) (ev : event) :
  console ev → connects_as w host port akv akf ev.
Proof. by destruct ev. Qed.

(** Outside the platform every constructor call of [login] is made with
    the resolved host and port and with a credential the resolution allows,
    and a project that [login] returns has the resolved name. *)
Lemma login_calls_resolved (host : option string) (port : port_val)
    (project api_key_value api_key_file : option string) (w w' : World)
    (r : outcome Project) :
  environ w !! "REST_ENDPOINT" = None →
  login hw host port project api_key_value api_key_file w = (r, w') →
  (∃ evs, trace w' = trace w ++ evs
          ∧ Forall (connects_as w host port api_key_value api_key_file) evs)
  ∧ (∀ q n, r = Return q → spec_project project (environ w) = Some n → name q = n).
Proof.
  intros Hm. rewrite login_external by done. cbv zeta.
  rewrite resolve_host_spec, resolve_port_spec, resolve_project_spec.
  pose proof (torn_down_logout w) as T0.
  rewrite key_from_arguments_run by apply T0.
  set (P := connects_as w host port api_key_value api_key_file).
  set (h := spec_host host (environ w)).
  set (p := spec_port port (environ w)).
  set (pj := spec_project project (environ w)).
  set (path := api_key_path_of w).
  fold (extends P w w').
  assert (Pc : ∀ ev, console ev → P ev) by apply connects_as_console.
  assert (E0 : extends P w (logout_world w)) by by apply extends_logout.
  destruct (logout_world_outside w) as (_ & _ & F0 & I0 & _).
  assert (Tail : ∀ k w1,
    extends P w w1 → _saas_connection w1 = Placeholder → stdin w1 = stdin w →
    k = spec_api_key api_key_value api_key_file (files w) (environ w) →
    prompt_then_login hw h p pj k path w1 = (r, w') →
    extends P w w' ∧ (∀ q n, r = Return q → pj = Some n → name q = n)).
  { intros k w1 E1 S1 I1 Hk. rewrite prompt_then_login_run, key_from_prompt_run.
    assert (Last : ∀ k' w2,
      extends P w w2 → _saas_connection w2 = Placeholder →
      credential_resolved w host api_key_value api_key_file (ApiKeyValue k') →
      login_with_key hw h p pj k' w2 = (r, w') →
      extends P w w' ∧ (∀ q n, r = Return q → pj = Some n → name q = n)).
    { intros k' w2 E2 S2 C. rewrite login_with_key_run.
      destruct (connect_and_select _ _ _ _) as [r3 w3] eqn:A.
      apply connect_and_select_attempt in A; [|done].
      assert (E3 : extends P w w3).
      { eapply extends_trans; [exact E2|].
        eapply extends_attempt; [exact Pc| |exact A]. by eexists. }
      destruct r3 as [q|e].
      - intros [= <- <-]. split.
        + eapply extends_trans; [exact E3|]. by apply extends_emit.
        + intros q' n [= <-] Hn. rewrite Hn in A. by apply attempt_named in A.
      - destruct e; intros [= <- <-]; (split; [|discriminate]); try exact E3.
        eapply extends_trans; [exact E3|]. by apply extends_logout. }
    destruct (is_None k && String.eqb h saas_host) eqn:G.
    - apply andb_true_iff in G as [Gk Gh].
      destruct k; [discriminate|]. apply String.eqb_eq in Gh.
      destruct (stdin w1) as [|line rest] eqn:I.
      + intros [= <- <-]. split; [|discriminate].
        eapply extends_trans; [exact E1|].
        eapply extends_trans; by apply extends_emit.
      + apply Last.
        * eapply extends_trans; [exact E1|].
          eapply extends_trans; [by apply (extends_emit P (EvPrint msg_copy))|].
          eapply extends_trans; [by apply (extends_emit P (EvGetpass msg_paste))|].
          by apply extends_same_trace.
        * exact S1.
        * unfold credential_resolved. rewrite <- Hk. left. split; [done|].
          exists line, rest. by rewrite <- I1.
    - apply Last; [exact E1|exact S1|].
      unfold credential_resolved. rewrite <- Hk. destruct k as [key|]; [done|].
      right. split; [|done]. simpl in G. intros Hh. fold h in Hh.
      rewrite Hh in G. by rewrite String.eqb_refl in G. }
  destruct api_key_value as [v|]; [by apply Tail; [|apply T0|..]|].
  destruct api_key_file as [f|].
  { destruct (files (logout_world w) !! f) as [k|] eqn:Ff.
    - apply Tail; [done|apply T0|done|]. simpl. by rewrite <- F0.
    - intros [= <- <-]. split; [done|discriminate]. }
  destruct (bool_decide _ && String.eqb h saas_host) eqn:G.
  2:{ apply Tail; [done|apply T0|done|]. apply env_api_key_spec. }
  apply andb_true_iff in G as [Gx Gh].
  apply bool_decide_eq_true in Gx. apply String.eqb_eq in Gh.
  destruct (connect_and_select _ _ _ _) as [r1 w1] eqn:A.
  apply connect_and_select_attempt in A; [|apply T0].
  assert (E1 : extends P w w1).
  { eapply extends_trans; [exact E0|].
    eapply extends_attempt; [exact Pc| |exact A].
    eexists. split; [done|]. simpl. by rewrite <- F0. }
  destruct r1 as [q|e].
  - intros [= <- <-]. split.
    + eapply extends_trans; [exact E1|]. by apply extends_emit.
    + intros q' n [= <-] Hn. fold pj in Hn. rewrite Hn in A. by apply attempt_named in A.
  - destruct e; try (intros [= <- <-]; split; [exact E1|discriminate]).
    apply Tail.
    + eapply extends_trans; [exact E1|].
      eapply extends_trans; [by apply extends_logout|]. by apply extends_same_trace.
    + apply logout_world_placeholder.
    + destruct (logout_world_outside w1) as (_ & _ & _ & I1 & _).
      cbn [cache_removed set_files stdin]. rewrite I1, <- I0.
      by apply attempt_rest_error in A as [->| ->].
    + apply env_api_key_spec.
Qed.

(** *** Files across the last stage *)

Lemma login_with_key_outside (host : string) (port : port_val)
    (project api_key : option string) (w w' : World) (r : outcome Project) :
  _saas_connection w = Placeholder →
  login_with_key hw host port project api_key w = (r, w') →
  environ w' = environ w ∧ getcwd w' = getcwd w ∧ files w' = files w.
Proof.
  intros S. rewrite login_with_key_run.
  destruct (connect_and_select _ _ _ _) as [r3 w3] eqn:A.
  apply connect_and_select_attempt in A; [|done].
  apply attempt_outside in A as (? & ? & ?).
  destruct (logout_world_outside w3) as (? & ? & ? & _).
  destruct r3 as [q|[]]; intros [= <- <-]; simpl; repeat split; congruence.
Qed.

(** The events of the last stage: one constructor call with the key by
    value, then the console, then at most a close. *)
Lemma login_with_key_trace (host : string) (port : port_val)
    (project api_key : option string) (w w' : World) (r : outcome Project) :
  _saas_connection w = Placeholder →
  login_with_key hw host port project api_key w = (r, w') →
  ∃ evs, trace w' = trace w ++ EvConnect (ExternalArgs host port (ApiKeyValue api_key)) :: evs
         ∧ Forall (λ ev, console ev ∨ ∃ i, ev = EvClose i) evs.
Proof.
  intros S. rewrite login_with_key_run.
  destruct (connect_and_select _ _ _ _) as [r3 w3] eqn:A.
  apply connect_and_select_attempt in A; [|done].
  apply attempt_trace in A as (evs & T & F).
  assert (F' : Forall (λ ev, console ev ∨ ∃ i, ev = EvClose i) evs).
  { eapply Forall_impl; [exact F|]. by left. }
  destruct r3 as [q|e].
  - intros [= <- <-]. exists (evs ++ [EvPrint (msg_logged_in q)]). simpl. rewrite T.
    split; [by rewrite <- app_assoc|]. apply Forall_app. split; [done|].
    repeat constructor.
  - destruct e; intros [= <- <-]; try by exists evs.
    rewrite logout_world_trace, T.
    eexists (evs ++ _). split; [by rewrite <- app_assoc|].
    apply Forall_app. split; [done|].
    destruct (_saas_connection w3) as [|c]; [constructor|].
    constructor; [right; by eexists|constructor].
Qed.

(** The last stage is one attempt with the key by value. *)
Lemma login_with_key_first (host : string) (port : port_val)
    (project api_key : option string) (path : string) (w w' : World)
    (r : outcome Project) :
  _saas_connection w = Placeholder →
  login_with_key hw host port project api_key w = (r, w') →
  ∃ r1 w1,
    attempt hw (ExternalArgs host port (ApiKeyValue api_key)) project w r1 w1
    ∧ after_first_call path (ExternalArgs host port (ApiKeyValue api_key)) r1 w1 r w'.
Proof.
  intros S. rewrite login_with_key_run.
  destruct (connect_and_select _ _ _ _) as [r3 w3] eqn:A.
  apply connect_and_select_attempt in A; [|done].
  intros L. exists r3, w3. split; [exact A|].
  destruct r3 as [q|e]; [by injection L as <- <-|].
  destruct e; by injection L as <- <-.
Qed.

(** ** A rule for [login] outside the platform *)

(** To show [Q] of every outcome of [login] it is enough to keep an
    invariant [I] of the worlds from which a session is attempted (after
    the first [logout], after a rejected cache was removed, after the
    prompt), and to show [Q] where [login] can end. *)
Lemma login_external_rule (I : World → Prop) (Q : outcome Project → World → Prop)
    (host : option string) (port : port_val)
    (project api_key_value api_key_file : option string) (w w' : World)
    (r : outcome Project) :
  environ w !! "REST_ENDPOINT" = None →
  I (logout_world w) →
  (∀ wi, I wi → _saas_connection wi = Placeholder) →
  (∀ wi line rest, I wi → I (cache_written (api_key_path_of w) line (prompted rest wi))) →
  (∀ wi args r1 w1, I wi →
     attempt hw args (spec_project project (environ w)) wi r1 w1 →
     I (cache_removed (api_key_path_of w) (logout_world w1))) →
  (∀ wi f, I wi →
     Q (Raise (IOError ("Could not find api key file on path: " +:+ f))) wi) →
  (∀ wi, I wi →
     Q (Raise EOFError) (emit (EvGetpass msg_paste) (emit (EvPrint msg_copy) wi))) →
  (∀ wi args q w1, I wi →
     attempt hw args (spec_project project (environ w)) wi (Return q) w1 →
     Q (Return q) (emit (EvPrint (msg_logged_in q)) w1)) →
  (∀ wi args e w1, I wi →
     attempt hw args (spec_project project (environ w)) wi (Raise e) w1 →
     (∀ u resp, e ≠ RestAPIError u resp) → Q (Raise e) w1) →
  (∀ wi args u resp w1, I wi →
     attempt hw args (spec_project project (environ w)) wi (Raise (RestAPIError u resp)) w1 →
     Q (Raise (RestAPIError u resp)) (logout_world w1)) →
  login hw host port project api_key_value api_key_file w = (r, w') →
  Q r w'.
Proof.
  intros Hm I0 Ip Iw Ir Qio Qeof Qok Qexn Qrest.
  rewrite login_external by done. cbv zeta.
  rewrite resolve_project_spec.
  rewrite key_from_arguments_run by by apply Ip.
  set (h := resolve_host host (environ w)).
  set (p := resolve_port port (environ w)).
  set (pj := spec_project project (environ w)) in *.
  set (path := api_key_path_of w) in *.
  assert (Tail : ∀ k wi, I wi → prompt_then_login hw h p pj k path wi = (r, w') → Q r w').
  { intros k wi Ii. rewrite prompt_then_login_run, key_from_prompt_run.
    assert (Last : ∀ k' wj, I wj → login_with_key hw h p pj k' wj = (r, w') → Q r w').
    { intros k' wj Ij. rewrite login_with_key_run.
      destruct (connect_and_select _ _ _ _) as [r3 w3] eqn:A.
      apply connect_and_select_attempt in A; [|by apply Ip].
      destruct r3 as [q|e].
      - intros [= <- <-]. by eapply Qok.
      - destruct e; intros [= <- <-];
          try (eapply Qexn; [exact Ij|exact A|discriminate]).
        by eapply Qrest. }
    destruct (is_None k && String.eqb h saas_host).
    - destruct (stdin wi) as [|line rest].
      + intros [= <- <-]. by apply Qeof.
      + apply Last. by apply Iw.
    - by apply Last. }
  destruct api_key_value as [v|]; [by apply Tail|].
  destruct api_key_file as [f|].
  { destruct (files (logout_world w) !! f); [by apply Tail|].
    intros [= <- <-]. by apply Qio. }
  destruct (bool_decide _ && String.eqb h saas_host); [|by apply Tail].
  destruct (connect_and_select _ _ _ _) as [r1 w1] eqn:A.
  apply connect_and_select_attempt in A; [|by apply Ip].
  destruct r1 as [q|e].
  - intros [= <- <-]. by eapply Qok.
  - destruct e; try (intros [= <- <-]; eapply Qexn; [exact I0|exact A|discriminate]).
    apply Tail. by eapply Ir.
Qed.

End Login.

(** ** Stripping *)

Lemma lstrip_id (s : string) : first_is_space s = false → Py.lstrip s = s.
Proof. destruct s as [|c s]; simpl; [done|]. by intros ->. Qed.

Lemma rstrip_id (s : string) : last_is_space s = false → Py.rstrip s = s.
Proof.
  induction s as [|c s IH]; [done|]. cbn [last_is_space Py.rstrip].
  destruct s as [|c' s].
  - simpl. by intros ->.
  - intros H. rewrite (IH H). reflexivity.
Qed.

Lemma strip_id (s : string) :
  first_is_space s = false → last_is_space s = false → Py.strip s = s.
Proof. intros H1 H2. unfold Py.strip. rewrite (lstrip_id _ H1). by apply rstrip_id. Qed.

Lemma lstrip_length (s : string) : (String.length (Py.lstrip s) <= String.length s)%nat.
Proof.
  induction s as [|c s IH]; simpl; [done|]. destruct (Py.isspace c); simpl; lia.
Qed.

Lemma rstrip_length (s : string) : (String.length (Py.rstrip s) <= String.length s)%nat.
Proof.
  induction s as [|c s IH]; simpl; [done|].
  destruct (Py.rstrip s); [destruct (Py.isspace c)|]; simpl in *; lia.
Qed.

Lemma rstrip_last (s : string) : last_is_space s = true → Py.rstrip s ≠ s.
Proof.
  induction s as [|c s IH]; [done|]. cbn [last_is_space Py.rstrip].
  destruct s as [|c' s].
  - simpl. by intros ->.
  - intros H. specialize (IH H).
    destruct (Py.rstrip (String c' s)) eqn:E.
    + destruct (Py.isspace c); discriminate.
    + congruence.
Qed.

(** The stripped string is the string itself exactly when it neither begins
    nor ends with whitespace. *)
Lemma strip_fixed (s : string) :
  Py.strip s = s ↔ first_is_space s = false ∧ last_is_space s = false.
Proof.
  split; [|intros [? ?]; by apply strip_id].
  intros H. unfold Py.strip in H.
  destruct (first_is_space s) eqn:F.
  - exfalso. destruct s as [|c s]; [done|]. simpl in F, H. rewrite F in H.
    apply (f_equal String.length) in H. simpl in H.
    pose proof (rstrip_length (Py.lstrip s)). pose proof (lstrip_length s). lia.
  - rewrite (lstrip_id _ F) in H. split; [done|].
    destruct (last_is_space s) eqn:L; [|done]. by apply rstrip_last in L.
Qed.

(** ** The claims about [login] *)

Section Claims.
Context (hw : Platform).



(** Inside the platform a failure of [get_project], after the implicit
    session was opened, is not caught: the session stays bound and open. *)
Lemma managed_get_project_failure (host : option string) (port : port_val)
    (project api_key_value api_key_file : option string) (w : World)
    (u : string) (resp : Response) :
  is_Some (environ w !! "REST_ENDPOINT") →
  connect hw (emit (EvConnect ImplicitArgs) (logout_world w)) ImplicitArgs = None →
  get_project hw (connected ImplicitArgs (logout_world w))
    {| conn_id := created (logout_world w); conn_args_of := ImplicitArgs |}
  = inl (u, resp) →
  login hw host port project api_key_value api_key_file w
  = (Raise (RestAPIError u resp), connected ImplicitArgs (logout_world w)).
Proof.
  intros Hm Hc Hg. rewrite login_managed by done. cbv zeta. by rewrite Hc, Hg.
Qed.

Lemma prompt_then_login_extends (host : string) (port : port_val)
    (project api_key : option string) (path : string) (w w' : World)
    (r : outcome Project) :
  _saas_connection w = Placeholder →
  prompt_then_login hw host port project api_key path w = (r, w') →
  ∃ evs, trace w' = trace w ++ evs.
Proof.
  intros S. rewrite prompt_then_login_run, key_from_prompt_run.
  destruct (is_None api_key && String.eqb host saas_host).
  - destruct (stdin w) as [|line rest].
    + intros [= <- <-]. simpl. rewrite <- app_assoc. by eexists.
    + intros L. apply login_with_key_trace in L as (evs & T & _); [|done].
      rewrite T. simpl. rewrite <- !app_assoc. by eexists.
  - intros L. apply login_with_key_trace in L as (evs & T & _); [|done]. by eexists.
Qed.

(** With a cache file and the default host, the first constructor call of
    [login] is made with that file as [api_key_file]. *)
Lemma login_cached_first (host : option string) (port : port_val)
    (project : option string) (w w' : World) (r : outcome Project) :
  environ w !! "REST_ENDPOINT" = None →
  is_Some (files w !! api_key_path_of w) →
  spec_host host (environ w) = saas_host →
  login hw host port project None None w = (r, w') →
  ∃ evs, trace w'
         = trace (logout_world w)
           ++ EvConnect (ExternalArgs saas_host (spec_port port (environ w))
                           (ApiKeyFile (api_key_path_of w))) :: evs.
Proof.
  intros Hm Hx Hh. rewrite login_external by done. cbv zeta.
  rewrite resolve_host_spec, resolve_port_spec, Hh.
  rewrite key_from_arguments_run by apply logout_world_placeholder.
  destruct (logout_world_outside w) as (_ & _ & F0 & _).
  rewrite F0, bool_decide_eq_true_2, String.eqb_refl by done. cbn [andb].
  destruct (connect_and_select _ _ _ _) as [r1 w1] eqn:A.
  apply connect_and_select_attempt in A; [|apply logout_world_placeholder].
  apply attempt_trace in A as (evs & T & _).
  destruct r1 as [q|e].
  - intros [= <- <-]. simpl. rewrite T, <- app_assoc. by eexists.
  - destruct e; try (intros [= <- <-]; by eexists).
    intros L. apply prompt_then_login_extends in L as (evs' & T');
      [|apply logout_world_placeholder].
    rewrite T'. cbn [cache_removed set_files trace].
    rewrite logout_world_trace, T, <- !app_assoc. simpl. by eexists.
Qed.

Lemma env_api_key_none (env : gmap string string) :
  env_api_key None None env = env !! "HOPSWORKS_API_KEY".
Proof. apply (env_api_key_spec ∅). Qed.

(** The first constructor call of [login] is the one the specification
    resolves, made with the resolved project, and [login] ends as that
    attempt decides. *)
Lemma login_first_call (host : option string) (port : port_val)
    (project api_key_value api_key_file : option string) (w w' : World)
    (r : outcome Project) :
  environ w !! "REST_ENDPOINT" = None →
  login hw host port project api_key_value api_key_file w = (r, w') →
  match first_call w host port api_key_value api_key_file with
  | Some (wi, args) =>
      ∃ r1 w1, attempt hw args (spec_project project (environ w)) wi r1 w1
               ∧ after_first_call (api_key_path_of w) args r1 w1 r w'
  | None =>
      (∃ f, api_key_file = Some f
            ∧ r = Raise (IOError ("Could not find api key file on path: " +:+ f))
            ∧ w' = logout_world w)
      ∨ (r = Raise EOFError
         ∧ w' = emit (EvGetpass msg_paste) (emit (EvPrint msg_copy) (logout_world w)))
  end.
Proof.
  intros Hm. rewrite login_external by done. cbv zeta.
  rewrite resolve_host_spec, resolve_port_spec, resolve_project_spec.
  rewrite key_from_arguments_run by apply logout_world_placeholder.
  destruct (logout_world_outside w) as (_ & _ & F0 & I0 & _).
  unfold first_call. cbv zeta. rewrite F0.
  assert (Direct : ∀ k,
    prompt_then_login hw (spec_host host (environ w)) (spec_port port (environ w))
      (spec_project project (environ w)) (Some k) (api_key_path_of w) (logout_world w)
    = (r, w') →
    ∃ r1 w1,
      attempt hw (ExternalArgs (spec_host host (environ w)) (spec_port port (environ w))
                    (ApiKeyValue (Some k)))
        (spec_project project (environ w)) (logout_world w) r1 w1
      ∧ after_first_call (api_key_path_of w)
          (ExternalArgs (spec_host host (environ w)) (spec_port port (environ w))
             (ApiKeyValue (Some k))) r1 w1 r w').
  { intros k. rewrite prompt_then_login_run, key_from_prompt_run. cbn [is_None andb].
    apply login_with_key_first, logout_world_placeholder. }
  destruct api_key_value as [v|]; [apply Direct|].
  destruct api_key_file as [f|].
  { destruct (files w !! f) as [k|]; [apply Direct|].
    intros [= <- <-]. left. by exists f. }
  rewrite env_api_key_none.
  destruct (String.eqb (spec_host host (environ w)) saas_host) eqn:Hh.
  - rewrite andb_true_r.
    destruct (bool_decide (is_Some (files w !! api_key_path_of w))).
    + destruct (connect_and_select _ _ _ _) as [r1 w1] eqn:A.
      apply connect_and_select_attempt in A; [|apply logout_world_placeholder].
      intros L. exists r1, w1. split; [exact A|].
      destruct r1 as [q|e]; [by injection L as <- <-|].
      destruct e; try by injection L as <- <-.
      apply prompt_then_login_extends in L as (evs & Tr);
        [|apply logout_world_placeholder].
      exists evs. split; [exact Tr|]. by apply Forall_true.
    + destruct (environ w !! "HOPSWORKS_API_KEY") as [e|]; [apply Direct|].
      rewrite prompt_then_login_run, key_from_prompt_run. cbn [is_None].
      rewrite Hh. cbn [andb]. rewrite I0.
      destruct (stdin w) as [|line rest].
      * intros [= <- <-]. by right.
      * apply login_with_key_first, logout_world_placeholder.
  - rewrite andb_false_r.
    rewrite prompt_then_login_run, key_from_prompt_run, Hh, andb_false_r.
    apply login_with_key_first, logout_world_placeholder.
Qed.

(** C1, as amended. Outside the platform (REST_ENDPOINT not set) [login]
    resolves the four values and uses them.  Its first constructor call is
    the one of [first_call]: to the host given by argument, else
    HOPSWORKS_HOST, else the default host; to the port given by argument
    unless that is 443, else HOPSWORKS_PORT (as a string), else 443; with
    the cached key file when no key argument is given, the file exists and
    the host is the default one, whatever HOPSWORKS_API_KEY holds, and
    otherwise with a key by value: [api_key_value], else the content of
    [api_key_file], else HOPSWORKS_API_KEY, else the line typed at the
    prompt (default host) or none (any other host).  The call is made unless
    the key file is missing or the prompt gets no input; the selector is
    given the project of the argument, else of HOPSWORKS_PROJECT, and
    [login] ends as that attempt decides.  Every later constructor call has
    the same host and port and a credential of that resolution, and a
    project that [login] returns has the resolved name.  Inside the
    platform none of the four is resolved: the outcome is that of [login]
    without arguments, the constructor is called once and without
    arguments, and the project returned is the one [get_project] gave. *)
Theorem login_resolution (host : option string) (port : port_val)
    (project api_key_value api_key_file : option string) (w w' : World)
    (r : outcome Project) :
  login hw host port project api_key_value api_key_file w = (r, w') →
  match environ w !! "REST_ENDPOINT" with
  | None =>
      (∃ evs, trace w' = trace w ++ evs
              ∧ Forall (connects_as w host port api_key_value api_key_file) evs)
      ∧ (∀ q n, r = Return q → spec_project project (environ w) = Some n → name q = n)
      ∧ match first_call w host port api_key_value api_key_file with
        | Some (wi, args) =>
            ∃ r1 w1, attempt hw args (spec_project project (environ w)) wi r1 w1
                     ∧ after_first_call (api_key_path_of w) args r1 w1 r w'
        | None =>
            (∃ f, api_key_file = Some f
                  ∧ r = Raise (IOError ("Could not find api key file on path: " +:+ f))
                  ∧ w' = (logout w).2)
            ∨ (r = Raise EOFError
               ∧ w' = emit (EvGetpass msg_paste) (emit (EvPrint msg_copy) (logout w).2))
        end
  | Some _ =>
      login hw None default_port None None None w = (r, w')
      ∧ (∃ evs, trace w' = trace (logout w).2 ++ EvConnect ImplicitArgs :: evs
                ∧ Forall console evs)
      ∧ (∀ q, r = Return q →
           connect hw (emit (EvConnect ImplicitArgs) (logout w).2) ImplicitArgs = None
           ∧ get_project hw (connected ImplicitArgs (logout w).2)
               {| conn_id := created w; conn_args_of := ImplicitArgs |} = inr q)
  end.
Proof.
  rewrite logout_run. cbn [snd].
  destruct (environ w !! "REST_ENDPOINT") as [v|] eqn:Hm.
  - rewrite !login_managed by eauto. cbv zeta.
    destruct (logout_world_outside w) as (_ & _ & _ & _ & Hc).
    intros L. split; [exact L|]. revert L. unfold rest_error.
    destruct (connect hw _ _) as [[u resp]|].
    { intros [= <- <-]. split; [|discriminate]. exists []. by split. }
    rewrite Hc.
    destruct (get_project hw _ _) as [[u resp]|q]; intros [= <- <-].
    + split; [|discriminate]. exists []. by split.
    + split; [|by intros q' [= <-]].
      exists [EvPrint (msg_logged_in q)]. split; [|by repeat constructor].
      cbn [trace emit connected set_saas set_live]. by rewrite <- app_assoc.
  - intros L. split; [|split].
    + exact (proj1 (login_calls_resolved hw _ _ _ _ _ _ _ _ Hm L)).
    + exact (proj2 (login_calls_resolved hw _ _ _ _ _ _ _ _ Hm L)).
    + exact (login_first_call _ _ _ _ _ _ _ _ Hm L).
Qed.

(** C5, as amended. When [login] prompts for the key (default host, no key
    argument, no HOPSWORKS_API_KEY, no cache file), the cache file holds
    afterwards the typed line with leading and trailing whitespace
    stripped; that is the typed line itself exactly when it neither begins
    nor ends with whitespace.  A later [login] with the same environment,
    working directory and files makes its first constructor call for the
    default host with that cache file as key file. *)
Theorem cache_round_trip (host : option string) (port : port_val)
    (project : option string) (w w' : World) (r : outcome Project)
    (line : string) (rest : list string) :
  environ w !! "REST_ENDPOINT" = None →
  spec_host host (environ w) = saas_host →
  environ w !! "HOPSWORKS_API_KEY" = None →
  files w !! api_key_path_of w = None →
  stdin w = line :: rest →
  login hw host port project None None w = (r, w') →
  key_material (files w') (ApiKeyFile (api_key_path_of w)) = Some (Py.strip line)
  ∧ (Py.strip line = line ↔ first_is_space line = false ∧ last_is_space line = false)
  ∧ ∀ (port2 : port_val) (project2 : option string) (w2 w2' : World)
      (r2 : outcome Project),
      environ w2 = environ w → getcwd w2 = getcwd w → files w2 = files w' →
      login hw host port2 project2 None None w2 = (r2, w2') →
      ∃ evs, trace w2'
             = trace (logout w2).2
               ++ EvConnect (ExternalArgs saas_host (spec_port port2 (environ w))
                               (ApiKeyFile (api_key_path_of w))) :: evs.
Proof.
  intros Hm Hh Hk Hx Hin L.
  assert (Hw : files w' !! api_key_path_of w = Some (Py.strip line)).
  { revert L. rewrite login_external by done. cbv zeta.
    rewrite resolve_host_spec, Hh.
    rewrite key_from_arguments_run by apply logout_world_placeholder.
    destruct (logout_world_outside w) as (_ & _ & F0 & I0 & _).
    rewrite F0, Hx, bool_decide_eq_false_2 by (intros [? ?]; discriminate).
    cbn [andb]. rewrite env_api_key_none, Hk.
    rewrite prompt_then_login_run, key_from_prompt_run, String.eqb_refl.
    cbn [is_None andb]. rewrite I0, Hin.
    intros L. apply login_with_key_outside in L as (_ & _ & ->);
      [|apply logout_world_placeholder].
    cbn [cache_written set_files files]. apply lookup_insert_eq. }
  split; [exact Hw|]. split; [apply strip_fixed|].
  intros port2 project2 w2 w2' r2 He Hc Hf L2. rewrite logout_run. cbn [snd].
  assert (Hp : api_key_path_of w2 = api_key_path_of w).
  { unfold api_key_path_of. by rewrite Hc. }
  rewrite <- He, <- Hp.
  apply (login_cached_first host port2 project2 w2 w2' r2); rewrite ?He, ?Hp, ?Hf; eauto.
Qed.

(** C4, as amended. When the cache file exists for the default host, no key
    argument is given and the attempt with the cached key ends in a
    [RestAPIError], [login] tears the session down and deletes the cache
    file, then goes on without the stale key: with HOPSWORKS_API_KEY set it
    connects with that key by value, does not prompt, and the cache file
    stays deleted; without it, it prompts, connects with the typed line by
    value and writes the stripped line to the cache file, which therefore
    exists again; with nothing to read the prompt ends in [EOFError] and
    the cache file stays deleted. *)
Theorem rejected_cache_is_replaced (host : option string) (port : port_val)
    (project : option string) (w w1 w' : World) (r : outcome Project)
    (u : string) (resp : Response) :
  environ w !! "REST_ENDPOINT" = None →
  is_Some (files w !! api_key_path_of w) →
  spec_host host (environ w) = saas_host →
  connect_and_select hw
    (ExternalArgs saas_host (spec_port port (environ w)) (ApiKeyFile (api_key_path_of w)))
    (spec_project project (environ w)) (logout w).2
  = (Raise (RestAPIError u resp), w1) →
  login hw host port project None None w = (r, w') →
  let path := api_key_path_of w in
  let wd := cache_removed path (logout w1).2 in
  let by_value k :=
    EvConnect (ExternalArgs saas_host (spec_port port (environ w)) (ApiKeyValue (Some k))) in
  files wd !! path = None
  ∧ _saas_connection wd = Placeholder
  ∧ ∃ evs, Forall (λ ev, console ev ∨ ∃ i, ev = EvClose i) evs
      ∧ match environ w !! "HOPSWORKS_API_KEY", stdin w with
        | Some e, _ =>
            trace w' = trace wd ++ by_value e :: evs
            ∧ files w' !! path = None
        | None, line :: _ =>
            trace w' = trace wd ++ EvPrint msg_copy :: EvGetpass msg_paste
                                   :: by_value line :: evs
            ∧ files w' !! path = Some (Py.strip line)
        | None, [] =>
            trace w' = trace wd ++ [EvPrint msg_copy; EvGetpass msg_paste]
            ∧ r = Raise EOFError
            ∧ files w' !! path = None
        end.
Proof.
  intros Hm Hx Hh. rewrite !logout_run. cbn [snd]. intros A.
  rewrite login_external by done. cbv zeta.
  rewrite resolve_host_spec, resolve_port_spec, resolve_project_spec, Hh.
  rewrite key_from_arguments_run by apply logout_world_placeholder.
  destruct (logout_world_outside w) as (_ & _ & F0 & I0 & _).
  rewrite F0, bool_decide_eq_true_2, String.eqb_refl, A by done. cbn [andb].
  apply connect_and_select_attempt in A; [|apply logout_world_placeholder].
  assert (I1 : stdin w1 = stdin w).
  { rewrite <- I0. by apply attempt_rest_error in A as [->| ->]. }
  set (path := api_key_path_of w).
  set (wd := cache_removed path (logout_world w1)).
  assert (Fd : files wd !! path = None) by apply lookup_delete_eq.
  assert (Sd : _saas_connection wd = Placeholder) by apply logout_world_placeholder.
  assert (Id : stdin wd = stdin w).
  { subst wd. cbn [cache_removed set_files stdin].
    destruct (logout_world_outside w1) as (_ & _ & _ & -> & _). exact I1. }
  rewrite prompt_then_login_run, key_from_prompt_run, env_api_key_none, String.eqb_refl.
  intros L. split; [exact Fd|]. split; [exact Sd|].
  destruct (environ w !! "HOPSWORKS_API_KEY") as [e|]; cbn [is_None andb] in L.
  - pose proof (login_with_key_outside _ _ _ _ _ _ _ _ Sd L) as (_ & _ & Fw).
    apply login_with_key_trace in L as (evs & T & F); [|done].
    exists evs. split; [done|]. split; [done|]. by rewrite Fw.
  - rewrite Id in L. destruct (stdin w) as [|line rest].
    + injection L as <- <-. exists []. split; [done|].
      cbn [emit trace files]. rewrite <- app_assoc. done.
    + assert (Sw : _saas_connection (cache_written path line (prompted rest wd))
                   = Placeholder) by exact Sd.
      pose proof (login_with_key_outside _ _ _ _ _ _ _ _ Sw L) as (_ & _ & Fw).
      apply login_with_key_trace in L as (evs & T & F); [|done].
      exists evs. split; [done|]. split.
      * rewrite T. cbn [cache_written prompted set_files set_stdin emit trace].
        by rewrite <- !app_assoc.
      * rewrite Fw. cbn [cache_written set_files files]. apply lookup_insert_eq.
Qed.

End Claims.

(** ** The claims at concrete inputs *)

Lemma login_resolution_counterexample :
  (* an explicit port 443 gives way to HOPSWORKS_PORT *)
  (let w := Demo.world {[ "HOPSWORKS_PORT" := "8181" ]} ∅ [] in
   let by_env := EvConnect (ExternalArgs saas_host (PortStr "8181") (ApiKeyValue (Some "K"))) in
   trace (login (Demo.platform "K" [Demo.a]) None (PortInt 443) None (Some "K") None w).2
   = [by_env; EvPrint (msg_logged_in Demo.a)]
   ∧ ¬ connects_as_claimed w None (PortInt 443) (Some "K") by_env)
  (* the cached key file is tried before HOPSWORKS_API_KEY, and accepted *)
  ∧ (let w := Demo.world {[ "HOPSWORKS_API_KEY" := "E" ]} {[ Demo.cache := "C" ]} [] in
     let by_cache := EvConnect (ExternalArgs saas_host (PortInt 443) (ApiKeyFile Demo.cache)) in
     trace (login (Demo.platform "C" [Demo.a]) None (PortInt 443) None None None w).2
     = [by_cache; EvPrint (msg_logged_in Demo.a)]
     ∧ ¬ connects_as_claimed w None (PortInt 443) None by_cache)
  (* inside the platform the arguments are not looked at *)
  ∧ (let w := Demo.world {[ "REST_ENDPOINT" := Demo.rest_endpoint ]} ∅ [] in
     trace (login (Demo.platform "K" [Demo.a]) (Some "my.hopsworks.server") (PortInt 8181)
              None (Some "K") None w).2
     = [EvConnect ImplicitArgs; EvPrint (msg_logged_in Demo.a)]
     ∧ ¬ connects_as_claimed w (Some "my.hopsworks.server") (PortInt 8181) (Some "K")
           (EvConnect ImplicitArgs)).
Proof.
  repeat split; try (vm_compute; reflexivity); vm_compute; discriminate.
Qed.

Lemma login_resolution_witness :
  (* a cache file and HOPSWORKS_API_KEY: the cache file goes first *)
  let P := Demo.platform "stale" Demo.three in
  let w := Demo.world {[ "HOPSWORKS_API_KEY" := "E"; "HOPSWORKS_PROJECT" := "b" ]}
             {[ Demo.cache := "stale" ]} [] in
  let args := ExternalArgs saas_host (PortInt 443) (ApiKeyFile Demo.cache) in
  (login P None (PortInt 443) None None None w).1 = Return Demo.b
  ∧ first_call w None (PortInt 443) None None = Some ((logout w).2, args)
  ∧ ∃ r1 w1,
      attempt P args (Some "b") (logout w).2 r1 w1
      ∧ after_first_call Demo.cache args r1 w1
          (login P None (PortInt 443) None None None w).1
          (login P None (PortInt 443) None None None w).2.
Proof.
  cbv zeta.
  pose (P := Demo.platform "stale" Demo.three).
  pose (w := Demo.world {[ "HOPSWORKS_API_KEY" := "E"; "HOPSWORKS_PROJECT" := "b" ]}
               {[ Demo.cache := "stale" ]} []).
  pose (run := login P None (PortInt 443) None None None w).
  assert (H0 : environ w !! "REST_ENDPOINT" = None) by (vm_compute; reflexivity).
  assert (H1 : run = (run.1, run.2)) by apply surjective_pairing.
  assert (H2 : first_call w None (PortInt 443) None None
               = Some ((logout w).2,
                       ExternalArgs saas_host (PortInt 443) (ApiKeyFile Demo.cache)))
    by (vm_compute; reflexivity).
  assert (H3 : spec_project None (environ w) = Some "b") by (vm_compute; reflexivity).
  assert (H4 : api_key_path_of w = Demo.cache) by (vm_compute; reflexivity).
  split; [vm_compute; reflexivity|]. split; [exact H2|].
  pose proof (login_resolution P None (PortInt 443) None None None w run.2 run.1 H1) as W.
  rewrite H0, H2, H3, H4 in W. exact (proj2 (proj2 W)).
Defined.

Lemma empty_list_counterexample :
  get_projects (Demo.platform "K" []) Demo.world_bare Demo.conn = inr []
  ∧ _prompt_project (Demo.platform "K" []) Demo.conn (Some "z") Demo.world_bare
    = (Raise (ProjectException "Could not find project z"), Demo.world_bare)
  ∧ ProjectException "Could not find project z"
    ≠ ProjectException "Could not find any project".
Proof. repeat split; try discriminate; vm_compute; reflexivity. Qed.

Lemma empty_list_fails_witness :
  get_projects (Demo.platform "K" []) Demo.world_bare Demo.conn = inr []
  ∧ _prompt_project (Demo.platform "K" []) Demo.conn (Some "z") Demo.world_bare
    = (Raise (ProjectException (no_project_message (Some "z"))), Demo.world_bare).
Proof.
  split; [reflexivity|].
  apply (empty_list_fails (Demo.platform "K" []) Demo.conn (Some "z") Demo.world_bare).
  reflexivity.
Defined.




Lemma rejected_cache_counterexample :
  (* the prompt is reached, and the cache file is there again afterwards *)
  (is_Some (files Demo.world_stale !! Demo.cache)
   ∧ (login (Demo.platform "fresh" [Demo.a]) None (PortInt 443) None None None
        Demo.world_stale).1 = Return Demo.a
   ∧ trace (login (Demo.platform "fresh" [Demo.a]) None (PortInt 443) None None None
              Demo.world_stale).2
     = [EvConnect (ExternalArgs saas_host (PortInt 443) (ApiKeyFile Demo.cache));
        EvPrint msg_copy; EvGetpass msg_paste;
        EvConnect (ExternalArgs saas_host (PortInt 443) (ApiKeyValue (Some "fresh")));
        EvPrint (msg_logged_in Demo.a)]
   ∧ files (login (Demo.platform "fresh" [Demo.a]) None (PortInt 443) None None None
              Demo.world_stale).2 !! Demo.cache = Some "fresh")
  (* with HOPSWORKS_API_KEY set there is no prompt *)
  ∧ (is_Some (files Demo.world_stale_env !! Demo.cache)
     ∧ trace (login (Demo.platform "E" [Demo.a]) None (PortInt 443) None None None
                Demo.world_stale_env).2
       = [EvConnect (ExternalArgs saas_host (PortInt 443) (ApiKeyFile Demo.cache));
          EvConnect (ExternalArgs saas_host (PortInt 443) (ApiKeyValue (Some "E")));
          EvPrint (msg_logged_in Demo.a)]
     ∧ files (login (Demo.platform "E" [Demo.a]) None (PortInt 443) None None None
                Demo.world_stale_env).2 !! Demo.cache = None).
Proof.
  repeat split; try (vm_compute; reflexivity); by eexists.
Qed.

Lemma rejected_cache_is_replaced_witness :
  environ Demo.world_stale !! "REST_ENDPOINT" = None
  ∧ is_Some (files Demo.world_stale !! api_key_path_of Demo.world_stale)
  ∧ spec_host None (environ Demo.world_stale) = saas_host
  ∧ files (login (Demo.platform "fresh" [Demo.a]) None (PortInt 443) None None None
             Demo.world_stale).2 !! Demo.cache = Some (Py.strip "fresh").
Proof.
  pose (P := Demo.platform "fresh" [Demo.a]).
  pose (att := connect_and_select P
                 (ExternalArgs saas_host (spec_port (PortInt 443) (environ Demo.world_stale))
                    (ApiKeyFile (api_key_path_of Demo.world_stale)))
                 (spec_project None (environ Demo.world_stale)) (logout Demo.world_stale).2).
  pose (run := login P None (PortInt 443) None None None Demo.world_stale).
  assert (H1 : environ Demo.world_stale !! "REST_ENDPOINT" = None) by (vm_compute; reflexivity).
  assert (H2 : is_Some (files Demo.world_stale !! api_key_path_of Demo.world_stale))
    by (by eexists).
  assert (H3 : spec_host None (environ Demo.world_stale) = saas_host)
    by (vm_compute; reflexivity).
  assert (H4 : att = (Raise (RestAPIError
                        "https://c.app.hopsworks.ai/hopsworks-api/api/project"
                        Demo.unauthorized), att.2)) by (vm_compute; reflexivity).
  assert (H5 : run = (run.1, run.2)) by (vm_compute; reflexivity).
  split; [exact H1|]. split; [exact H2|]. split; [exact H3|].
  destruct (rejected_cache_is_replaced P None (PortInt 443) None Demo.world_stale att.2
              run.2 run.1 _ _ H1 H2 H3 H4 H5) as (_ & _ & evs & _ & Hc).
  exact (proj2 Hc).
Defined.

Lemma cache_round_trip_counterexample :
  stdin Demo.world_paste = ["K "]
  ∧ trace (login (Demo.platform "K" [Demo.a]) None (PortInt 443) None None None
             Demo.world_paste).2
    = [EvPrint msg_copy; EvGetpass msg_paste;
       EvConnect (ExternalArgs saas_host (PortInt 443) (ApiKeyValue (Some "K ")))]
  ∧ key_material
      (files (login (Demo.platform "K" [Demo.a]) None (PortInt 443) None None None
                Demo.world_paste).2)
      (ApiKeyFile Demo.cache) = Some "K"
  ∧ Some "K" ≠ Some "K ".
Proof.
  repeat split; try (vm_compute; reflexivity). discriminate.
Qed.

Lemma cache_round_trip_witness :
  environ Demo.world_paste !! "REST_ENDPOINT" = None
  ∧ spec_host None (environ Demo.world_paste) = saas_host
  ∧ environ Demo.world_paste !! "HOPSWORKS_API_KEY" = None
  ∧ files Demo.world_paste !! api_key_path_of Demo.world_paste = None
  ∧ stdin Demo.world_paste = ["K "]
  ∧ key_material
      (files (login (Demo.platform "K" [Demo.a]) None (PortInt 443) None None None
                Demo.world_paste).2)
      (ApiKeyFile (api_key_path_of Demo.world_paste)) = Some (Py.strip "K ").
Proof.
  pose (run := login (Demo.platform "K" [Demo.a]) None (PortInt 443) None None None
                 Demo.world_paste).
  assert (H1 : environ Demo.world_paste !! "REST_ENDPOINT" = None) by (vm_compute; reflexivity).
  assert (H2 : spec_host None (environ Demo.world_paste) = saas_host)
    by (vm_compute; reflexivity).
  assert (H3 : environ Demo.world_paste !! "HOPSWORKS_API_KEY" = None)
    by (vm_compute; reflexivity).
  assert (H4 : files Demo.world_paste !! api_key_path_of Demo.world_paste = None)
    by (vm_compute; reflexivity).
  assert (H5 : stdin Demo.world_paste = ["K "]) by reflexivity.
  assert (H6 : run = (run.1, run.2)) by (vm_compute; reflexivity).
  repeat (split; [assumption|]).
  exact (proj1 (cache_round_trip (Demo.platform "K" [Demo.a]) None (PortInt 443) None
                  Demo.world_paste run.2 run.1 "K " [] H1 H2 H3 H4 H5 H6)).
Defined.

Lemma selector_0_x_2_witness :
  get_projects (Demo.platform "K" Demo.three) Demo.world_0_x_2 Demo.conn
  = inr (Demo.a :: Demo.b :: [Demo.c])
  ∧ stdin Demo.world_0_x_2 = "0" :: "x" :: "2" :: []
  ∧ _prompt_project (Demo.platform "K" Demo.three) Demo.conn None Demo.world_0_x_2
    = (Return Demo.b,
       set_stdin []
         (add_trace
            (EvPrint (Py.nl +:+ "Multiple projects found. " +:+ Py.nl)
             :: menu_events 0 (Demo.a :: Demo.b :: [Demo.c]) ++ turns_0_x_2)
            Demo.world_0_x_2)).
Proof.
  split; [reflexivity|]. split; [reflexivity|].
  apply (selector_0_x_2 (Demo.platform "K" Demo.three) Demo.conn Demo.a Demo.b [Demo.c] []
           Demo.world_0_x_2); reflexivity.
Defined.

Lemma named_project_first_match_witness :
  get_projects (Demo.platform "K" Demo.three) Demo.world_bare Demo.conn = inr Demo.three
  ∧ ((∃ l1 p l2, Demo.three = l1 ++ p :: l2 ∧ name p = "b"
                 ∧ Forall (λ q, name q ≠ "b") l1
                 ∧ _prompt_project (Demo.platform "K" Demo.three) Demo.conn (Some "b")
                     Demo.world_bare = (Return p, Demo.world_bare))
     ∨ (Forall (λ q, name q ≠ "b") Demo.three
        ∧ _prompt_project (Demo.platform "K" Demo.three) Demo.conn (Some "b")
            Demo.world_bare
          = (Raise (ProjectException ("Could not find project " +:+ "b")),
             Demo.world_bare))).
Proof.
  split; [reflexivity|].
  apply (named_project_first_match (Demo.platform "K" Demo.three) Demo.conn "b" Demo.three
           Demo.world_bare).
  reflexivity.
Defined.

Lemma single_project_without_prompt_witness :
  get_projects (Demo.platform "K" [Demo.a]) Demo.world_0_x_2 Demo.conn = inr [Demo.a]
  ∧ _prompt_project (Demo.platform "K" [Demo.a]) Demo.conn None Demo.world_0_x_2
    = (Return Demo.a, Demo.world_0_x_2).
Proof.
  split; [reflexivity|].
  apply (single_project_without_prompt (Demo.platform "K" [Demo.a]) Demo.conn Demo.a
           Demo.world_0_x_2).
  reflexivity.
Defined.

Lemma logout_idempotent_witness :
  _saas_connection Demo.world_bare = Placeholder
  ∧ logout Demo.world_bare = (Return tt, Demo.world_bare).
Proof.
  split; [reflexivity|].
  apply (proj2 (proj2 (proj2 (logout_idempotent Demo.world_bare)))). reflexivity.
Defined.

(** The examples of the specification: among [a], [b], [c] the name [b]
    selects [b], and the name [z] fails naming [z]. *)
Example select_b :
  _prompt_project (Demo.platform "K" Demo.three) Demo.conn (Some "b") Demo.world_bare
  = (Return Demo.b, Demo.world_bare).
Proof. vm_compute. reflexivity. Qed.

Example select_z :
  _prompt_project (Demo.platform "K" Demo.three) Demo.conn (Some "z") Demo.world_bare
  = (Raise (ProjectException "Could not find project z"), Demo.world_bare).
Proof. vm_compute. reflexivity. Qed.

(** Two logouts after a login: the first closes the session, the second
    changes nothing. *)
Example logout_after_login :
  let w := (login (Demo.platform "K" [Demo.a]) None (PortInt 443) None (Some "K") None
              Demo.world_bare).2 in
  _saas_connection w = Live Demo.conn
  ∧ trace (logout w).2 = trace w ++ [EvClose 0]
  ∧ live (logout w).2 = ∅
  ∧ logout (logout w).2 = (Return tt, (logout w).2).
Proof. repeat split; vm_compute; reflexivity. Qed.

(** [int] against [str.strip]: the separators FS..US are whitespace for
    [strip] and not for [int]; NEL and NBSP are whitespace for both; a sign
    stands right before the digits; underscores stand between digits. *)
Example int_refuses_fs :
  Py.strip (Py.chr 28 +:+ "2") = "2" ∧ Py.int (Py.chr 28 +:+ "2") = None
  ∧ Py.int (Py.chr 31 +:+ "0") = None.
Proof. repeat split; vm_compute; reflexivity. Qed.

Example int_skips_nel_nbsp :
  Py.int (Py.chr 133 +:+ "2" +:+ Py.chr 160) = Some 2
  ∧ Py.int (Py.tab +:+ "-7" +:+ Py.nl) = Some (-7)
  ∧ Py.int "- 7" = None.
Proof. repeat split; vm_compute; reflexivity. Qed.

Example int_underscores :
  Py.int "1_000" = Some 1000 ∧ Py.int "1__0" = None ∧ Py.int "_1" = None
  ∧ Py.int "1_" = None ∧ Py.int "007" = Some 7 ∧ Py.int EmptyString = None.
Proof. repeat split; vm_compute; reflexivity. Qed.

(** The limit on the digits: 4300 digits are read, 4301 are a
    [ValueError], leading zeros counted. *)
Example int_digit_limit :
  let ones n := String.concat EmptyString (replicate n "1") in
  let zeros n := String.concat EmptyString (replicate n "0") in
  Py.int (ones 4300%nat) ≠ None ∧ Py.int (ones 4301%nat) = None
  ∧ Py.int (zeros 4300%nat) = Some 0 ∧ Py.int (zeros 4301%nat) = None
  ∧ Py.int ("-" +:+ ones 4301%nat) = None.
Proof. cbv zeta. repeat split; vm_compute; try reflexivity. discriminate. Qed.

(** * Further properties *)

Section SelectorMore.
Context (hw : Platform).

Lemma select_loop_returns_member (ps : list Project) (lines : list string)
    (w w' : World) (p : Project) :
  select_loop ps lines w = (Return p, w') → p ∈ ps.
Proof.
  revert w. induction lines as [|l lines IH]; intros w; cbn [select_loop];
    unfold mbind, M_bind, input, raise.
  - destruct (stdin w); discriminate.
  - destruct (stdin w) as [|line rest]; [discriminate|].
    unfold print, modify.
    destruct (Py.int line) as [i|]; [|apply IH].
    destruct (i <=? 0)%Z; [apply IH|].
    destruct (ps !! Z.to_nat (i - 1)) as [q|] eqn:E; [|apply IH].
    intros [= <- <-]. by eapply list_elem_of_lookup_2.
Qed.

(** X1. Whatever the branch (by name, single project, or menu), a project
    the selector returns is one of the projects [get_projects] listed. *)
Theorem selector_returns_visible (c : Connection) (project : option string)
    (ps : list Project) (p : Project) (w w' : World) :
  get_projects hw w c = inr ps →
  _prompt_project hw c project w = (Return p, w') →
  p ∈ ps.
Proof.
  intros Hps. unfold _prompt_project, mbind, M_bind, conn_get_projects. rewrite Hps.
  destruct project as [n|].
  { destruct (find_by_name ps n) as [q|] eqn:F; [|discriminate].
    intros [= <- <-]. apply find_by_name_first in F as (l1 & l2 & -> & _).
    apply elem_of_app. right. by left. }
  destruct (length ps =? 0)%nat; [discriminate|].
  destruct (length ps =? 1)%nat.
  { destruct (ps !! 0%nat) as [q|] eqn:E; [|discriminate].
    intros [= <- <-]. by eapply list_elem_of_lookup_2. }
  unfold print, modify, gets. rewrite print_menu_run.
  apply select_loop_returns_member.
Qed.


Lemma rejections_cons (line : string) (lines : list string) :
  rejections (line :: lines)
  = EvInput msg_enter :: EvPrint (rejection line) :: rejections lines.
Proof. reflexivity. Qed.

(** The loop turns down a run of lines that pick nothing, one prompt and
    one message per line, and goes on with the lines after them. *)
Lemma select_loop_rejects (ps : list Project) (bad rest : list string) (w : World) :
  Forall (invalid_choice ps) bad →
  stdin w = bad ++ rest →
  select_loop ps (bad ++ rest) w
  = select_loop ps rest (set_stdin rest (add_trace (rejections bad) w)).
Proof.
  revert w. induction bad as [|l bad IH]; intros w Hbad Hin.
  - simpl. f_equal. apply World_eq; try reflexivity; simpl.
    + by rewrite Hin.
    + by rewrite app_nil_r.
  - apply Forall_cons in Hbad as [Hl Hbad].
    change ((l :: bad) ++ rest) with (l :: (bad ++ rest)).
    rewrite (select_loop_turn ps l l (bad ++ rest) (bad ++ rest) w Hin). cbv zeta.
    assert (Hgo : select_loop ps (bad ++ rest)
                    (emit (EvPrint (rejection l))
                       (set_stdin (bad ++ rest) (emit (EvInput msg_enter) w)))
                  = select_loop ps rest
                      (set_stdin rest (add_trace (rejections (l :: bad)) w))).
    { rewrite IH; [|done|reflexivity]. f_equal. apply World_eq; try reflexivity.
      rewrite rejections_cons. cbn [trace set_stdin add_trace emit].
      by rewrite <- !app_assoc. }
    unfold invalid_choice in Hl. unfold rejection in Hgo.
    destruct (Py.int l) as [i|]; [|exact Hgo].
    destruct (i <=? 0)%Z eqn:Hi; [exact Hgo|].
    apply Z.leb_gt in Hi. destruct Hl as [Hl|Hl]; [lia|].
    rewrite (proj2 (lookup_ge_None ps (Z.to_nat (i - 1)))) by lia.
    exact Hgo.
Qed.

Lemma select_loop_accepts (ps : list Project) (good : string) (more : list string)
    (p : Project) (w : World) :
  valid_choice ps good p →
  stdin w = good :: more →
  select_loop ps (good :: more) w
  = (Return p, set_stdin more (emit (EvInput msg_enter) w)).
Proof.
  intros (i & Hi & H1 & Hp) Hin.
  rewrite (select_loop_turn ps good good more more w Hin). cbv zeta.
  rewrite Hi. rewrite (proj2 (Z.leb_gt i 0)) by lia. by rewrite Hp.
Qed.

Lemma select_loop_eof (ps : list Project) (w : World) :
  stdin w = [] →
  select_loop ps [] w = (Raise EOFError, emit (EvInput msg_enter) w).
Proof. intros Hin. cbn [select_loop]. unfold mbind, M_bind, input. by rewrite Hin. Qed.

Lemma prompt_project_menu (c : Connection) (ps : list Project) (w : World) :
  get_projects hw w c = inr ps → (2 ≤ length ps)%nat →
  _prompt_project hw c None w
  = select_loop ps (stdin w) (add_trace (EvPrint msg_multiple :: menu_events 0 ps) w).
Proof.
  intros Hps Hlen. unfold _prompt_project, mbind, M_bind, conn_get_projects. rewrite Hps.
  rewrite (proj2 (Nat.eqb_neq (length ps) 0)) by lia.
  rewrite (proj2 (Nat.eqb_neq (length ps) 1)) by lia.
  unfold print, modify, gets. rewrite print_menu_run, emit_as_add_trace, add_trace_add_trace.
  reflexivity.
Qed.

(** X3. With at least two visible projects and no project name, any
    number of entries that pick nothing (not an integer, below 1, beyond the
    list) followed by an entry from 1 up to the number of projects makes the
    selector return the project of that entry: the menu is printed once,
    every rejected entry gets one prompt and one message (the message for an
    entry below 1, else the one for anything else), exactly the lines up to
    the accepted one are read, and nothing else changes. *)
Theorem selector_retries_until_valid (c : Connection) (ps : list Project)
    (bad : list string) (good : string) (more : list string) (p : Project) (w : World) :
  get_projects hw w c = inr ps → (2 ≤ length ps)%nat →
  Forall (invalid_choice ps) bad → valid_choice ps good p →
  stdin w = bad ++ good :: more →
  _prompt_project hw c None w
  = (Return p,
     set_stdin more
       (add_trace
          (EvPrint msg_multiple :: menu_events 0 ps ++ rejections bad ++ [EvInput msg_enter])
          w)).
Proof.
  intros Hps Hlen Hbad Hgood Hin.
  rewrite (prompt_project_menu c ps w Hps Hlen), Hin.
  rewrite select_loop_rejects by done.
  rewrite (select_loop_accepts ps good more p) by done.
  f_equal. apply World_eq; try reflexivity.
  cbn [trace set_stdin add_trace emit]. by rewrite <- !app_assoc.
Qed.

(** X4. The loop has no retry limit and gives up only at the end of the
    input: when every pending line picks nothing, the selector rejects each
    of them in turn, prompts once more and ends in the [EOFError] of
    [input], all lines read. *)
Theorem selector_ends_at_eof (c : Connection) (ps : list Project) (w : World) :
  get_projects hw w c = inr ps → (2 ≤ length ps)%nat →
  Forall (invalid_choice ps) (stdin w) →
  _prompt_project hw c None w
  = (Raise EOFError,
     set_stdin []
       (add_trace
          (EvPrint msg_multiple :: menu_events 0 ps ++ rejections (stdin w)
           ++ [EvInput msg_enter])
          w)).
Proof.
  intros Hps Hlen Hbad.
  rewrite (prompt_project_menu c ps w Hps Hlen).
  rewrite <- (app_nil_r (stdin w)) at 1.
  rewrite select_loop_rejects; [|done|by rewrite app_nil_r].
  rewrite select_loop_eof by reflexivity.
  f_equal. apply World_eq; try reflexivity.
  cbn [trace set_stdin add_trace emit]. by rewrite <- !app_assoc.
Qed.

End SelectorMore.

Lemma choice_classified (ps : list Project) (line : string) :
  invalid_choice ps line ∨ ∃ p, valid_choice ps line p.
Proof.
  unfold invalid_choice, valid_choice. destruct (Py.int line) as [i|]; [|by left].
  destruct (decide (i ≤ 0)%Z); [left; by left|].
  destruct (ps !! Z.to_nat (i - 1)) as [p|] eqn:E.
  - right. exists p, i. repeat split; [lia|done].
  - left. right. apply lookup_ge_None in E. lia.
Qed.

(** ** Further properties of [login] *)

Section LoginMore.
Context (hw : Platform).

(** What the selector can return or raise once a session is open. *)
Lemma attempt_returns_member (args : conn_args) (project : option string)
    (wi w1 : World) (q : Project) :
  attempt hw args project wi (Return q) w1 →
  ∃ ps, get_projects hw (connected args wi)
          {| conn_id := created wi; conn_args_of := args |} = inr ps
        ∧ q ∈ ps.
Proof.
  inversion 1 as [|r0 w0 E Hs]; subst. revert Hs.
  unfold _prompt_project, mbind, M_bind, conn_get_projects.
  destruct (get_projects hw _ _) as [?|ps]; [discriminate|].
  intros Hs. exists ps. split; [done|]. revert Hs.
  destruct project as [n|].
  { destruct (find_by_name ps n) as [q'|] eqn:F; [|discriminate].
    intros [= <- <-]. apply find_by_name_first in F as (l1 & l2 & -> & _).
    apply elem_of_app. right. by left. }
  destruct (length ps =? 0)%nat; [discriminate|].
  destruct (length ps =? 1)%nat.
  { destruct (ps !! 0%nat) as [q'|] eqn:E'; [|discriminate].
    intros [= <- <-]. by eapply list_elem_of_lookup_2. }
  unfold print, modify, gets. rewrite print_menu_run.
  apply select_loop_returns_member.
Qed.

Lemma attempt_raises (args : conn_args) (project : option string)
    (wi w1 : World) (e : exn) :
  attempt hw args project wi (Raise e) w1 → raised_by_selector e.
Proof.
  inversion 1 as [|r0 w0 E Hs]; subst; [done|]. revert Hs.
  unfold _prompt_project, mbind, M_bind, conn_get_projects.
  destruct (get_projects hw _ _) as [[u resp]|ps]; [by intros [= <- <-]|].
  destruct project as [n|].
  { destruct (find_by_name ps n); [discriminate|]. by intros [= <- <-]. }
  destruct (length ps =? 0)%nat; [by intros [= <- <-]|].
  destruct (length ps =? 1)%nat eqn:L1.
  { destruct ps as [|q ps]; discriminate. }
  unfold print, modify, gets. rewrite print_menu_run.
  intros Hs. apply select_loop_raises in Hs. by subst.
Qed.

(** X5. A key file that does not exist ends [login] at once in an [IOError]
    that names the path: the previous session is logged out, and nothing
    else happens (no constructor call, no prompt, no file touched), whatever
    HOPSWORKS_API_KEY and the cache file hold. *)
Theorem missing_key_file (host : option string) (port : port_val)
    (project : option string) (f : string) (w : World) :
  environ w !! "REST_ENDPOINT" = None →
  files w !! f = None →
  login hw host port project None (Some f) w
  = (Raise (IOError ("Could not find api key file on path: " +:+ f)), (logout w).2).
Proof.
  intros Hm Hf. rewrite logout_run, login_external by done. cbv zeta.
  rewrite key_from_arguments_run by apply logout_world_placeholder.
  destruct (logout_world_outside w) as (_ & _ & -> & _). by rewrite Hf.
Qed.

(** The part of the world outside the process that [login] must not touch. *)
Lemma outside_kept_trans (path : string) (w w1 w2 : World) :
  (environ w1 = environ w ∧ getcwd w1 = getcwd w
   ∧ ∀ p, p ≠ path → files w1 !! p = files w !! p) →
  environ w2 = environ w1 → getcwd w2 = getcwd w1 →
  (∀ p, p ≠ path → files w2 !! p = files w1 !! p) →
  environ w2 = environ w ∧ getcwd w2 = getcwd w
  ∧ ∀ p, p ≠ path → files w2 !! p = files w !! p.
Proof.
  intros (He & Hc & Hf) He2 Hc2 Hf2. repeat split; [congruence..|].
  intros p Hp. rewrite Hf2 by done. by apply Hf.
Qed.

(** X6. Whatever its outcome, [login] leaves the environment and the
    working directory as they were, and every file other than the cache
    file [.hw_api_key] of the working directory. *)
Theorem login_touches_only_cache (host : option string) (port : port_val)
    (project api_key_value api_key_file : option string) (w w' : World)
    (r : outcome Project) :
  login hw host port project api_key_value api_key_file w = (r, w') →
  environ w' = environ w ∧ getcwd w' = getcwd w
  ∧ ∀ path, path ≠ api_key_path_of w → files w' !! path = files w !! path.
Proof.
  set (F := λ wi : World, environ wi = environ w ∧ getcwd wi = getcwd w
              ∧ ∀ p, p ≠ api_key_path_of w → files wi !! p = files w !! p).
  assert (F0 : F (logout_world w)).
  { destruct (logout_world_outside w) as (? & ? & Hf & _). repeat split; [done..|].
    intros p _. by rewrite Hf. }
  assert (Fa : ∀ wi args pj r1 w1, F wi → attempt hw args pj wi r1 w1 → F w1).
  { intros wi args pj r1 w1 Fi A. apply attempt_outside in A as (? & ? & Hf).
    eapply outside_kept_trans; [exact Fi|done..|]. intros p _. by rewrite Hf. }
  assert (Fl : ∀ wi, F wi → F (logout_world wi)).
  { intros wi Fi. destruct (logout_world_outside wi) as (? & ? & Hf & _).
    eapply outside_kept_trans; [exact Fi|done..|]. intros p _. by rewrite Hf. }
  destruct (environ w !! "REST_ENDPOINT") as [v|] eqn:Hm.
  - rewrite login_managed by eauto. cbv zeta.
    destruct (connect hw _ _) as [[]|]; [by intros [= <- <-]|].
    destruct (get_project hw _ _) as [[]|]; by intros [= <- <-].
  - intros L. change (F w').
    eapply (login_external_rule hw
              (λ wi, _saas_connection wi = Placeholder ∧ F wi) (λ _ wi, F wi));
      [exact Hm| | | | | | | | | |exact L]; cbv beta.
    + split; [apply logout_world_placeholder|exact F0].
    + by intros wi [? _].
    + intros wi line rest [S Fi]. split; [exact S|].
      eapply outside_kept_trans; [exact Fi|done..|].
      intros p Hp. cbn [cache_written prompted set_files set_stdin emit files].
      by rewrite lookup_insert_ne.
    + intros wi args r1 w1 [S Fi] A. split; [apply logout_world_placeholder|].
      eapply outside_kept_trans; [exact (Fl _ (Fa _ _ _ _ _ Fi A))|done..|].
      intros p Hp. cbn [cache_removed set_files files]. by rewrite lookup_delete_ne.
    + by intros wi f [_ Fi].
    + by intros wi [_ Fi].
    + intros wi args q w1 [_ Fi] A. exact (Fa _ _ _ _ _ Fi A).
    + intros wi args e w1 [_ Fi] A _. exact (Fa _ _ _ _ _ Fi A).
    + intros wi args u resp w1 [_ Fi] A. exact (Fl _ (Fa _ _ _ _ _ Fi A)).
Qed.

(** Every event of [login] comes after those of its first [logout]. *)
Lemma login_after_logout (host : option string) (port : port_val)
    (project api_key_value api_key_file : option string) (w w' : World)
    (r : outcome Project) :
  login hw host port project api_key_value api_key_file w = (r, w') →
  extends (λ _, True) (logout_world w) w'.
Proof.
  destruct (environ w !! "REST_ENDPOINT") as [v|] eqn:Hm.
  - rewrite login_managed by eauto. cbv zeta.
    destruct (connect hw _ _) as [[]|].
    { intros [= <- <-]. by apply extends_emit. }
    destruct (get_project hw _ _) as [[]|]; intros [= <- <-].
    + eexists [_]. split; [reflexivity|by repeat constructor].
    + eexists [_; _]. split; [|by repeat constructor].
      cbn [trace emit connected set_saas set_live]. by rewrite <- app_assoc.
  - intros L.
    eapply (login_external_rule hw
              (λ wi, _saas_connection wi = Placeholder
                     ∧ extends (λ _, True) (logout_world w) wi)
              (λ _ wi, extends (λ _, True) (logout_world w) wi));
      [exact Hm| | | | | | | | | |exact L]; cbv beta.
    + split; [apply logout_world_placeholder|apply extends_refl].
    + by intros wi [? _].
    + intros wi line rest [S E]. split; [exact S|].
      eapply extends_trans; [exact E|].
      eapply extends_trans; [by apply (extends_emit _ (EvPrint msg_copy))|].
      eapply extends_trans; [by apply (extends_emit _ (EvGetpass msg_paste))|].
      by apply extends_same_trace.
    + intros wi args r1 w1 [S E] A. split; [apply logout_world_placeholder|].
      eapply extends_trans; [exact E|].
      eapply extends_trans; [by eapply extends_attempt|].
      eapply extends_trans; [by apply extends_logout|]. by apply extends_same_trace.
    + by intros wi f [_ E].
    + intros wi [_ E]. eapply extends_trans; [exact E|].
      eapply extends_trans; by apply extends_emit.
    + intros wi args q w1 [_ E] A. eapply extends_trans; [exact E|].
      eapply extends_trans; [by eapply extends_attempt|]. by apply extends_emit.
    + intros wi args e w1 [_ E] A _. eapply extends_trans; [exact E|].
      by eapply extends_attempt.
    + intros wi args u resp w1 [_ E] A. eapply extends_trans; [exact E|].
      eapply extends_trans; [by eapply extends_attempt|]. by apply extends_logout.
Qed.

(** X7. [login] starts with [logout]: when a session is bound, closing it
    is the first thing [login] does, before any constructor call, prompt or
    message, on every path and whatever the outcome. *)
Theorem login_closes_previous_session (host : option string) (port : port_val)
    (project api_key_value api_key_file : option string) (w w' : World)
    (r : outcome Project) (c : Connection) :
  _saas_connection w = Live c →
  login hw host port project api_key_value api_key_file w = (r, w') →
  ∃ evs, trace w' = trace w ++ EvClose (conn_id c) :: evs.
Proof.
  intros S L. apply login_after_logout in L as (evs & -> & _).
  exists evs. rewrite logout_world_trace, S. by rewrite <- app_assoc.
Qed.

Lemma idle_no_leak (w : World) : idle w → no_leak w.
Proof. intros [_ H] i Hi. by apply H in Hi. Qed.

Lemma attempt_from_idle (args : conn_args) (project : option string) (wi w1 : World)
    (r : outcome Project) :
  idle wi → attempt hw args project wi r w1 →
  no_leak w1 ∧ idle (logout_world w1).
Proof.
  intros [S L] A.
  apply attempt_session in A as [(_ & _ & S1 & L1 & _)|(_ & S1 & L1 & _)].
  - split.
    + intros i Hi. rewrite L1 in Hi. by apply L in Hi.
    + split; [apply logout_world_placeholder|].
      intros i Hi. apply logout_world_live in Hi. rewrite L1 in Hi. by apply L in Hi.
  - split.
    + intros i Hi. rewrite L1 in Hi. apply elem_of_union in Hi as [Hi|Hi].
      * apply elem_of_singleton in Hi as ->. by eexists.
      * by apply L in Hi.
    + split; [apply logout_world_placeholder|].
      intros i. unfold logout_world. rewrite S1.
      cbn [live set_saas set_live emit conn_id]. rewrite L1.
      intros Hi. apply elem_of_difference in Hi as [Hi Hn].
      apply elem_of_union in Hi as [Hi|Hi]; [done|]. by apply L in Hi.
Qed.

Lemma logout_world_idle (w : World) : no_leak w → idle (logout_world w).
Proof.
  intros N. split; [apply logout_world_placeholder|].
  intros i. unfold logout_world. destruct (_saas_connection w) as [|c] eqn:S.
  - cbn [live set_saas]. intros Hi. apply N in Hi as (c & Hc & _). congruence.
  - cbn [live set_saas set_live emit]. intros Hi.
    apply elem_of_difference in Hi as [Hi Hn].
    apply N in Hi as (c' & Hc & Hi). apply Hn, elem_of_singleton. congruence.
Qed.

(** X8. [logout] leaves nothing open: when the only open connection is the
    one bound to [_saas_connection], after [logout] the placeholder is back
    and no connection is open. *)
Theorem logout_closes_everything (w : World) :
  no_leak w → idle (logout w).2.
Proof. intros N. rewrite logout_run. by apply logout_world_idle. Qed.

(** A key prompt is never the last event of an attempt. *)
Lemma attempt_not_at_prompt (args : conn_args) (project : option string)
    (wi w1 : World) (r : outcome Project) (prompt : string) :
  attempt hw args project wi r w1 → last (trace w1) ≠ Some (EvGetpass prompt).
Proof.
  intros A Hl. apply attempt_trace in A as (evs & Tr & F).
  rewrite Tr in Hl. apply last_app_Some in Hl as [Hl|[Hl _]]; [|by apply last_None in Hl].
  apply last_Some_elem_of in Hl.
  apply elem_of_cons in Hl as [Hl|Hl]; [discriminate|].
  rewrite Forall_forall in F. by apply F in Hl.
Qed.

(** X9. [login] never leaks a connection.  When the only open connection is
    the one bound to [_saas_connection], the same holds after [login],
    whatever its arguments and its outcome.  Outside the platform, when
    [login] ends in a [RestAPIError], in the [IOError] of a missing key file
    or in the [EOFError] of the key prompt, no session is bound and no
    connection is open at all: a connection opened with a rejected cached
    key, or one whose project list could not be read, has been closed by
    then. *)
Theorem login_keeps_one_session (host : option string) (port : port_val)
    (project api_key_value api_key_file : option string) (w w' : World)
    (r : outcome Project) :
  no_leak w →
  login hw host port project api_key_value api_key_file w = (r, w') →
  no_leak w'
  ∧ (environ w !! "REST_ENDPOINT" = None →
     match r with
     | Raise (RestAPIError _ _) | Raise (IOError _) => idle w'
     | Raise EOFError => last (trace w') = Some (EvGetpass msg_paste) → idle w'
     | _ => True
     end).
Proof.
  intros N. apply logout_world_idle in N.
  destruct (environ w !! "REST_ENDPOINT") as [v|] eqn:Hm.
  - rewrite login_managed by eauto. cbv zeta.
    assert (Nc : no_leak (connected ImplicitArgs (logout_world w))).
    { intros i. cbn [connected live set_saas set_live emit _saas_connection].
      intros Hi. apply elem_of_union in Hi as [Hi|Hi].
      - apply elem_of_singleton in Hi as ->. by eexists.
      - by apply N in Hi. }
    destruct (connect hw _ _) as [[]|].
    { intros [= <- <-]. split; [by apply idle_no_leak|discriminate]. }
    destruct (get_project hw _ _) as [[]|]; intros [= <- <-];
      (split; [exact Nc|discriminate]).
  - intros L. split; [|intros _]; revert L.
    + apply (login_external_rule hw idle (λ _ wi, no_leak wi)); try exact Hm.
      * exact N.
      * by intros wi [? _].
      * intros wi line rest Ii. exact Ii.
      * intros wi args r1 w1 Ii A. exact (proj2 (attempt_from_idle _ _ _ _ _ Ii A)).
      * intros wi f Ii. by apply idle_no_leak.
      * intros wi Ii. by apply idle_no_leak.
      * intros wi args q w1 Ii A. exact (proj1 (attempt_from_idle _ _ _ _ _ Ii A)).
      * intros wi args e w1 Ii A _. exact (proj1 (attempt_from_idle _ _ _ _ _ Ii A)).
      * intros wi args u resp w1 Ii A.
        apply idle_no_leak. exact (proj2 (attempt_from_idle _ _ _ _ _ Ii A)).
    + apply (login_external_rule hw idle
               (λ r wi, match r with
                        | Raise (RestAPIError _ _) | Raise (IOError _) => idle wi
                        | Raise EOFError =>
                            last (trace wi) = Some (EvGetpass msg_paste) → idle wi
                        | _ => True
                        end)); try exact Hm.
      * exact N.
      * by intros wi [? _].
      * intros wi line rest Ii. exact Ii.
      * intros wi args r1 w1 Ii A. exact (proj2 (attempt_from_idle _ _ _ _ _ Ii A)).
      * intros wi f Ii. exact Ii.
      * intros wi Ii _. exact Ii.
      * done.
      * intros wi args e w1 Ii A He. pose proof (attempt_raises _ _ _ _ _ A) as R.
        destruct e; try done.
        -- by destruct (He url response).
        -- intros Hl. by destruct (attempt_not_at_prompt _ _ _ _ _ msg_paste A).
      * intros wi args u resp w1 Ii A. exact (proj2 (attempt_from_idle _ _ _ _ _ Ii A)).
Qed.

(** X10. [login] never calls a session as if it were the constructor.
    The module variable [_saas_connection] is the constructor whenever
    [login] calls it, on a first [login], on a [login] while logged in and
    on the retry after a rejected cached key, so [login] never ends in the
    [TypeError] of calling a [Connection] object; and no menu entry makes it
    end in an [IndexError]. *)
Theorem login_never_calls_a_session (host : option string) (port : port_val)
    (project api_key_value api_key_file : option string) (w w' : World)
    (r : outcome Project) :
  login hw host port project api_key_value api_key_file w = (r, w') →
  (∀ message, r ≠ Raise (TypeError message)) ∧ r ≠ Raise IndexError.
Proof.
  destruct (environ w !! "REST_ENDPOINT") as [v|] eqn:Hm.
  - rewrite login_managed by eauto. cbv zeta. unfold rest_error.
    destruct (connect hw _ _) as [[]|]; [by intros [= <- <-]|].
    destruct (get_project hw _ _) as [[]|]; by intros [= <- <-].
  - apply (login_external_rule hw
             (λ wi, _saas_connection wi = Placeholder)
             (λ r _, (∀ message, r ≠ Raise (TypeError message)) ∧ r ≠ Raise IndexError));
      try exact Hm; try done.
    + apply logout_world_placeholder.
    + intros. apply logout_world_placeholder.
    + intros wi args e w1 _ A _. apply attempt_raises in A.
      destruct e; try done.
Qed.

(** X11. Outside the platform a successful [login] returns one of the
    projects that [get_projects] listed for the session it leaves bound and
    open, and the message with the URL of that project is the last thing it
    prints. *)
Theorem login_returns_visible_project (host : option string) (port : port_val)
    (project api_key_value api_key_file : option string) (w w' : World) (q : Project) :
  environ w !! "REST_ENDPOINT" = None →
  login hw host port project api_key_value api_key_file w = (Return q, w') →
  ∃ c wq ps evs,
    _saas_connection w' = Live c ∧ conn_id c ∈ live w'
    ∧ get_projects hw wq c = inr ps ∧ q ∈ ps
    ∧ trace w' = evs ++ [EvPrint (msg_logged_in q)].
Proof.
  intros Hm L.
  eapply (login_external_rule hw
            (λ wi, _saas_connection wi = Placeholder)
            (λ r wi, match r with
                     | Return q =>
                         ∃ c wq ps evs,
                           _saas_connection wi = Live c ∧ conn_id c ∈ live wi
                           ∧ get_projects hw wq c = inr ps ∧ q ∈ ps
                           ∧ trace wi = evs ++ [EvPrint (msg_logged_in q)]
                     | Raise _ => True
                     end)
            _ _ _ _ _ _ _ (Return q));
    [exact Hm| | | | | | | | | |exact L]; cbv beta; try done.
  - intros. apply logout_world_placeholder.
  - intros. apply logout_world_placeholder.
  - intros wi args q1 w1 S A.
    destruct (attempt_returns_member _ _ _ _ _ A) as (ps & Hps & Hq).
    apply attempt_session in A as [(_ & (u & resp & ?) & _)|(_ & S1 & L1 & _)];
      [discriminate|].
    eexists _, _, ps, (trace w1). repeat split; [exact S1| |exact Hps|exact Hq].
    cbn [live emit conn_id]. rewrite L1. apply elem_of_union. left.
    by apply elem_of_singleton.
Qed.

(** X12. The cache file and the prompt belong to the default host without
    key arguments only.  With [api_key_value] or [api_key_file] given, or
    with another host, [login] reads and writes no cache file, never asks for
    a key, and calls the constructor at most once, with the key by value;
    what follows the call is console traffic and the closing of the session. *)
Theorem login_without_cache (host : option string) (port : port_val)
    (project api_key_value api_key_file : option string) (w w' : World)
    (r : outcome Project) :
  environ w !! "REST_ENDPOINT" = None →
  is_Some api_key_value ∨ is_Some api_key_file
  ∨ spec_host host (environ w) ≠ saas_host →
  login hw host port project api_key_value api_key_file w = (r, w') →
  files w' = files w
  ∧ (trace w' = trace (logout w).2
     ∨ ∃ k evs,
         trace w'
         = trace (logout w).2
           ++ EvConnect (ExternalArgs (spec_host host (environ w))
                           (spec_port port (environ w)) (ApiKeyValue k)) :: evs
         ∧ Forall (λ ev, console ev ∨ ∃ i, ev = EvClose i) evs).
Proof.
  intros Hm Hc. rewrite logout_run, login_external by done. cbv zeta.
  rewrite resolve_host_spec, resolve_port_spec.
  rewrite key_from_arguments_run by apply logout_world_placeholder.
  destruct (logout_world_outside w) as (_ & _ & Hf & _).
  assert (Last : ∀ k,
    login_with_key hw (spec_host host (environ w)) (spec_port port (environ w))
      (resolve_project project (environ w)) k (logout_world w) = (r, w') →
    files w' = files w
    ∧ (trace w' = trace (logout_world w)
       ∨ ∃ k evs,
           trace w'
           = trace (logout_world w)
             ++ EvConnect (ExternalArgs (spec_host host (environ w))
                             (spec_port port (environ w)) (ApiKeyValue k)) :: evs
           ∧ Forall (λ ev, console ev ∨ ∃ i, ev = EvClose i) evs)).
  { intros k L. split.
    - apply login_with_key_outside in L as (_ & _ & ->);
        [done|apply logout_world_placeholder].
    - right. exists k. eapply login_with_key_trace; [|exact L].
      apply logout_world_placeholder. }
  destruct api_key_value as [v|].
  { rewrite prompt_then_login_run, key_from_prompt_run. apply Last. }
  destruct api_key_file as [f|].
  { destruct (files (logout_world w) !! f) as [k|].
    - rewrite prompt_then_login_run, key_from_prompt_run. apply Last.
    - intros [= <- <-]. split; [done|by left]. }
  destruct Hc as [[? [=]]|[[? [=]]|Hh]].
  apply String.eqb_neq in Hh. rewrite Hh, andb_false_r.
  rewrite prompt_then_login_run, key_from_prompt_run, Hh, andb_false_r. apply Last.
Qed.

(** X13. Inside the platform (REST_ENDPOINT set) the arguments of [login]
    are ignored: the outcome is that of [login()] without arguments.  The
    constructor is called once, without arguments; no file is touched and
    no input is read.  When the constructor grants the session and
    [get_project] gives a project, [login] returns that project and prints
    its message; otherwise it ends in the [RestAPIError] the constructor, or
    else [get_project], raised, with nothing printed. *)
Theorem login_inside_platform (host : option string) (port : port_val)
    (project api_key_value api_key_file : option string) (w w' : World)
    (r : outcome Project) :
  is_Some (environ w !! "REST_ENDPOINT") →
  login hw host port project api_key_value api_key_file w = (r, w') →
  login hw None default_port None None None w = (r, w')
  ∧ files w' = files w ∧ stdin w' = stdin w
  ∧ (∃ evs, trace w' = trace (logout w).2 ++ EvConnect ImplicitArgs :: evs
            ∧ match r with
              | Return q => evs = [EvPrint (msg_logged_in q)]
              | Raise e => evs = [] ∧ ∃ u resp, e = RestAPIError u resp
              end)
  ∧ match r with
    | Return q =>
        connect hw (emit (EvConnect ImplicitArgs) (logout w).2) ImplicitArgs = None
        ∧ get_project hw (connected ImplicitArgs (logout w).2)
            {| conn_id := created w; conn_args_of := ImplicitArgs |} = inr q
    | Raise e =>
        ∃ u resp,
          e = RestAPIError u resp
          ∧ (connect hw (emit (EvConnect ImplicitArgs) (logout w).2) ImplicitArgs
             = Some (u, resp)
             ∨ (connect hw (emit (EvConnect ImplicitArgs) (logout w).2) ImplicitArgs
                = None
                ∧ get_project hw (connected ImplicitArgs (logout w).2)
                    {| conn_id := created w; conn_args_of := ImplicitArgs |}
                  = inl (u, resp)))
    end.
Proof.
  intros Hm. rewrite logout_run, !login_managed by done. cbv zeta.
  destruct (logout_world_outside w) as (_ & _ & Hf & Hi & Hc).
  intros L. split; [exact L|]. revert L.
  unfold rest_error.
  destruct (connect hw _ _) as [[u resp]|].
  { intros [= <- <-]. repeat split; [done..| |].
    - exists []. by eauto.
    - exists u, resp. split; [done|by left]. }
  rewrite Hc.
  destruct (get_project hw _ _) as [[u resp]|q]; intros [= <- <-].
  - repeat split; [done..| |].
    + exists []. split; [|by eauto].
      cbn [trace emit connected set_saas set_live]. reflexivity.
    + exists u, resp. split; [done|by right].
  - repeat split; [done..|]. eexists. split; [|reflexivity].
    cbn [trace emit connected set_saas set_live]. by rewrite <- app_assoc.
Qed.

(** X14. Inside the platform a failed [login] ends in a [RestAPIError] in
    one of two states.  When the constructor raised it, no session is bound
    and none was opened.  When [get_project] raised it, nothing catches it:
    the session just opened stays bound to [_saas_connection] and open. *)
Theorem managed_failure_modes (host : option string) (port : port_val)
    (project api_key_value api_key_file : option string) (w w' : World) (e : exn) :
  is_Some (environ w !! "REST_ENDPOINT") →
  login hw host port project api_key_value api_key_file w = (Raise e, w') →
  ∃ u resp,
    e = RestAPIError u resp
    ∧ ((connect hw (emit (EvConnect ImplicitArgs) (logout w).2) ImplicitArgs
        = Some (u, resp)
        ∧ torn_down w w')
       ∨ (connect hw (emit (EvConnect ImplicitArgs) (logout w).2) ImplicitArgs = None
          ∧ get_project hw (connected ImplicitArgs (logout w).2)
              {| conn_id := created w; conn_args_of := ImplicitArgs |}
            = inl (u, resp)
          ∧ session_left w w')).
Proof.
  intros Hm. rewrite logout_run, login_managed by done. cbv zeta.
  destruct (logout_world_outside w) as (_ & _ & _ & _ & Hc).
  destruct (connect hw _ _) as [[u resp]|].
  { intros [= <- <-]. exists u, resp. split; [done|]. left. split; [done|].
    destruct (torn_down_logout w) as (? & ? & ?). by repeat split. }
  rewrite Hc.
  destruct (get_project hw _ _) as [[u resp]|q] eqn:G; intros [= <- <-].
  exists u, resp. split; [done|]. right. split; [done|]. split; [done|].
  eexists. split; [|split].
  - cbn [connected _saas_connection set_saas]. reflexivity.
  - cbn [connected live set_saas set_live conn_id]. apply elem_of_union. left.
    by apply elem_of_singleton.
  - cbn [conn_id]. rewrite Hc. lia.
Qed.


End LoginMore.

(** ** Instances of the further properties *)

Lemma selector_returns_visible_witness :
  get_projects (Demo.platform "K" Demo.three) Demo.world_0_x_2 Demo.conn = inr Demo.three
  ∧ (_prompt_project (Demo.platform "K" Demo.three) Demo.conn None Demo.world_0_x_2).1
    = Return Demo.b
  ∧ Demo.b ∈ Demo.three.
Proof.
  pose (P := Demo.platform "K" Demo.three).
  pose (run := _prompt_project P Demo.conn None Demo.world_0_x_2).
  assert (H1 : get_projects P Demo.world_0_x_2 Demo.conn = inr Demo.three) by reflexivity.
  assert (H2 : run = (Return Demo.b, run.2)) by (vm_compute; reflexivity).
  split; [exact H1|]. split; [vm_compute; reflexivity|].
  exact (selector_returns_visible P Demo.conn None Demo.three Demo.b Demo.world_0_x_2
           run.2 H1 H2).
Defined.


Lemma selector_retries_until_valid_witness :
  Forall (invalid_choice Demo.three) ["9"; "no"; Cases.fs_2]
  ∧ valid_choice Demo.three "3" Demo.c
  ∧ _prompt_project (Demo.platform "K" Demo.three) Demo.conn None Cases.world_retry
    = (Return Demo.c,
       set_stdin ["1"]
         (add_trace
            (EvPrint msg_multiple :: menu_events 0 Demo.three
             ++ rejections ["9"; "no"; Cases.fs_2] ++ [EvInput msg_enter])
            Cases.world_retry)).
Proof.
  assert (H1 : Forall (invalid_choice Demo.three) ["9"; "no"; Cases.fs_2]).
  { constructor; [vm_compute; right; reflexivity|].
    constructor; [vm_compute; exact I|].
    constructor; [vm_compute; exact I|constructor]. }
  assert (H2 : valid_choice Demo.three "3" Demo.c).
  { exists 3%Z. split; [vm_compute; reflexivity|]. split; [lia|reflexivity]. }
  split; [exact H1|]. split; [exact H2|].
  apply (selector_retries_until_valid (Demo.platform "K" Demo.three) Demo.conn
           Demo.three ["9"; "no"; Cases.fs_2] "3" ["1"] Demo.c Cases.world_retry);
    [reflexivity|simpl; lia|exact H1|exact H2|reflexivity].
Defined.

Lemma selector_ends_at_eof_witness :
  Forall (invalid_choice Demo.three) (stdin Cases.world_rejected)
  ∧ rejections (stdin Cases.world_rejected)
    = [EvInput msg_enter; EvPrint msg_at_least_1;
       EvInput msg_enter; EvPrint msg_from_list;
       EvInput msg_enter; EvPrint msg_from_list;
       EvInput msg_enter; EvPrint msg_from_list]
  ∧ _prompt_project (Demo.platform "K" Demo.three) Demo.conn None Cases.world_rejected
    = (Raise EOFError,
       set_stdin []
         (add_trace
            (EvPrint msg_multiple :: menu_events 0 Demo.three
             ++ rejections (stdin Cases.world_rejected) ++ [EvInput msg_enter])
            Cases.world_rejected)).
Proof.
  assert (H1 : Forall (invalid_choice Demo.three) (stdin Cases.world_rejected)).
  { constructor; [vm_compute; left; discriminate|].
    constructor; [vm_compute; exact I|].
    constructor; [vm_compute; right; reflexivity|].
    constructor; [vm_compute; exact I|constructor]. }
  split; [exact H1|]. split; [vm_compute; reflexivity|].
  apply (selector_ends_at_eof (Demo.platform "K" Demo.three) Demo.conn Demo.three
           Cases.world_rejected); [reflexivity|simpl; lia|exact H1].
Defined.

Lemma missing_key_file_witness :
  environ Demo.world_env !! "REST_ENDPOINT" = None
  ∧ files Demo.world_env !! "/home/u/key.txt" = None
  ∧ login (Demo.platform "K" [Demo.a]) None (PortInt 443) None None
      (Some "/home/u/key.txt") Demo.world_env
    = (Raise (IOError ("Could not find api key file on path: " +:+ "/home/u/key.txt")),
       (logout Demo.world_env).2).
Proof.
  assert (H1 : environ Demo.world_env !! "REST_ENDPOINT" = None)
    by (vm_compute; reflexivity).
  assert (H2 : files Demo.world_env !! "/home/u/key.txt" = None)
    by (vm_compute; reflexivity).
  split; [exact H1|]. split; [exact H2|].
  exact (missing_key_file (Demo.platform "K" [Demo.a]) None (PortInt 443) None
           "/home/u/key.txt" Demo.world_env H1 H2).
Defined.

Lemma login_touches_only_cache_witness :
  "/home/u/notes.txt" ≠ api_key_path_of Demo.world_paste
  ∧ environ (login (Demo.platform "K " [Demo.a]) None (PortInt 443) None None None
               Demo.world_paste).2 = environ Demo.world_paste
  ∧ files (login (Demo.platform "K " [Demo.a]) None (PortInt 443) None None None
             Demo.world_paste).2 !! "/home/u/notes.txt"
    = files Demo.world_paste !! "/home/u/notes.txt".
Proof.
  pose (run := login (Demo.platform "K " [Demo.a]) None (PortInt 443) None None None
                 Demo.world_paste).
  assert (H1 : run = (run.1, run.2)) by apply surjective_pairing.
  assert (H2 : "/home/u/notes.txt" ≠ api_key_path_of Demo.world_paste).
  { intros H. vm_compute in H. discriminate. }
  destruct (login_touches_only_cache (Demo.platform "K " [Demo.a]) None (PortInt 443)
              None None None Demo.world_paste run.2 run.1 H1) as (He & _ & Hf).
  split; [exact H2|]. split; [exact He|]. exact (Hf _ H2).
Defined.

Lemma login_closes_previous_session_witness :
  _saas_connection Cases.world_bound = Live Cases.session
  ∧ ∃ evs,
      trace (login (Demo.platform "K" [Demo.a]) None (PortInt 443) None (Some "K") None
               Cases.world_bound).2
      = trace Cases.world_bound ++ EvClose 7 :: evs.
Proof.
  pose (run := login (Demo.platform "K" [Demo.a]) None (PortInt 443) None (Some "K") None
                 Cases.world_bound).
  assert (H1 : _saas_connection Cases.world_bound = Live Cases.session) by reflexivity.
  assert (H2 : run = (run.1, run.2)) by apply surjective_pairing.
  split; [exact H1|].
  exact (login_closes_previous_session (Demo.platform "K" [Demo.a]) None (PortInt 443)
           None (Some "K") None Cases.world_bound run.2 run.1 Cases.session H1 H2).
Defined.

Lemma world_bound_no_leak : no_leak Cases.world_bound.
Proof.
  intros i Hi. change (i ∈ ({[ 7%nat ]} : gset nat)) in Hi.
  apply elem_of_singleton in Hi as ->. by exists Cases.session.
Qed.

Lemma logout_closes_everything_witness :
  no_leak Cases.world_bound ∧ idle (logout Cases.world_bound).2.
Proof.
  split; [exact world_bound_no_leak|].
  exact (logout_closes_everything Cases.world_bound world_bound_no_leak).
Defined.

Lemma world_stale_no_leak : no_leak Demo.world_stale.
Proof. intros i Hi. by apply elem_of_empty in Hi. Qed.

Lemma login_keeps_one_session_witness :
  (* the cached key opens a session whose projects cannot be listed, and so
     does the typed key: both sessions are closed *)
  let run := login Demo.platform_unlisted None (PortInt 443) None None None
               Demo.world_stale in
  no_leak Demo.world_stale
  ∧ environ Demo.world_stale !! "REST_ENDPOINT" = None
  ∧ run.1 = Raise (RestAPIError "https://c.app.hopsworks.ai/hopsworks-api/api/project"
                     Demo.forbidden)
  ∧ trace run.2
    = [EvConnect (ExternalArgs saas_host (PortInt 443) (ApiKeyFile Demo.cache));
       EvClose 0; EvPrint msg_copy; EvGetpass msg_paste;
       EvConnect (ExternalArgs saas_host (PortInt 443) (ApiKeyValue (Some "fresh")));
       EvClose 1]
  ∧ no_leak run.2 ∧ idle run.2.
Proof.
  cbv zeta.
  pose (run := login Demo.platform_unlisted None (PortInt 443) None None None
                 Demo.world_stale).
  assert (H0 : environ Demo.world_stale !! "REST_ENDPOINT" = None)
    by (vm_compute; reflexivity).
  assert (H1 : run = (Raise (RestAPIError
                        "https://c.app.hopsworks.ai/hopsworks-api/api/project"
                        Demo.forbidden), run.2)) by (vm_compute; reflexivity).
  split; [exact world_stale_no_leak|]. split; [exact H0|].
  split; [vm_compute; reflexivity|]. split; [vm_compute; reflexivity|].
  destruct (login_keeps_one_session Demo.platform_unlisted None (PortInt 443) None None
              None Demo.world_stale run.2 _ world_stale_no_leak H1) as [Hn Hi].
  split; [exact Hn|exact (Hi H0)].
Defined.

Lemma login_never_calls_a_session_witness :
  (* a [login] while logged in *)
  _saas_connection Cases.world_bound = Live Cases.session
  ∧ (login (Demo.platform "K" [Demo.a]) None (PortInt 443) None (Some "K") None
       Cases.world_bound).1 = Return Demo.a
  ∧ (∀ message,
       (login (Demo.platform "K" [Demo.a]) None (PortInt 443) None (Some "K") None
          Cases.world_bound).1 ≠ Raise (TypeError message))
  ∧ (login (Demo.platform "K" [Demo.a]) None (PortInt 443) None (Some "K") None
       Cases.world_bound).1 ≠ Raise IndexError.
Proof.
  pose (run := login (Demo.platform "K" [Demo.a]) None (PortInt 443) None (Some "K") None
                 Cases.world_bound).
  assert (H : run = (run.1, run.2)) by apply surjective_pairing.
  split; [reflexivity|]. split; [vm_compute; reflexivity|].
  exact (login_never_calls_a_session (Demo.platform "K" [Demo.a]) None (PortInt 443)
           None (Some "K") None Cases.world_bound run.2 run.1 H).
Defined.

Lemma login_returns_visible_project_witness :
  environ Demo.world_env !! "REST_ENDPOINT" = None
  ∧ (login (Demo.platform "K" Demo.three) None (PortInt 443) None (Some "K") None
       Demo.world_env).1 = Return Demo.b
  ∧ ∃ c wq ps evs,
      _saas_connection
        (login (Demo.platform "K" Demo.three) None (PortInt 443) None (Some "K") None
           Demo.world_env).2 = Live c
      ∧ conn_id c
        ∈ live (login (Demo.platform "K" Demo.three) None (PortInt 443) None (Some "K")
                  None Demo.world_env).2
      ∧ get_projects (Demo.platform "K" Demo.three) wq c = inr ps ∧ Demo.b ∈ ps
      ∧ trace (login (Demo.platform "K" Demo.three) None (PortInt 443) None (Some "K")
                 None Demo.world_env).2
        = evs ++ [EvPrint (msg_logged_in Demo.b)].
Proof.
  pose (run := login (Demo.platform "K" Demo.three) None (PortInt 443) None (Some "K")
                 None Demo.world_env).
  assert (H1 : environ Demo.world_env !! "REST_ENDPOINT" = None)
    by (vm_compute; reflexivity).
  assert (H2 : run = (Return Demo.b, run.2)) by (vm_compute; reflexivity).
  split; [exact H1|]. split; [vm_compute; reflexivity|].
  exact (login_returns_visible_project (Demo.platform "K" Demo.three) None (PortInt 443)
           None (Some "K") None Demo.world_env run.2 Demo.b H1 H2).
Defined.

Lemma login_without_cache_witness :
  environ Demo.world_stale !! "REST_ENDPOINT" = None
  ∧ files (login (Demo.platform "K" [Demo.a]) None (PortInt 443) None (Some "K") None
             Demo.world_stale).2 = files Demo.world_stale.
Proof.
  pose (run := login (Demo.platform "K" [Demo.a]) None (PortInt 443) None (Some "K") None
                 Demo.world_stale).
  assert (H1 : environ Demo.world_stale !! "REST_ENDPOINT" = None)
    by (vm_compute; reflexivity).
  assert (H2 : is_Some (Some "K") ∨ is_Some (@None string)
               ∨ spec_host None (environ Demo.world_stale) ≠ saas_host)
    by (left; by eexists).
  assert (H3 : run = (run.1, run.2)) by apply surjective_pairing.
  split; [exact H1|].
  exact (proj1 (login_without_cache (Demo.platform "K" [Demo.a]) None (PortInt 443) None
                  (Some "K") None Demo.world_stale run.2 run.1 H1 H2 H3)).
Defined.

Lemma login_inside_platform_witness :
  let P := Demo.platform "K" [Demo.a] in
  let run := login P (Some "other.host") (PortInt 8181) (Some "b") (Some "wrong") None
               Cases.world_inside in
  is_Some (environ Cases.world_inside !! "REST_ENDPOINT")
  ∧ run.1 = Return Demo.a
  ∧ run = login P None default_port None None None Cases.world_inside
  ∧ files run.2 = files Cases.world_inside
  ∧ get_project P (connected ImplicitArgs (logout Cases.world_inside).2)
      {| conn_id := created Cases.world_inside; conn_args_of := ImplicitArgs |}
    = inr Demo.a.
Proof.
  cbv zeta.
  pose (run := login (Demo.platform "K" [Demo.a]) (Some "other.host") (PortInt 8181)
                 (Some "b") (Some "wrong") None Cases.world_inside).
  assert (H1 : is_Some (environ Cases.world_inside !! "REST_ENDPOINT")) by (by eexists).
  assert (H2 : run = (Return Demo.a, run.2)) by (vm_compute; reflexivity).
  destruct (login_inside_platform (Demo.platform "K" [Demo.a]) (Some "other.host")
              (PortInt 8181) (Some "b") (Some "wrong") None Cases.world_inside
              run.2 _ H1 H2) as (Hsame & Hf & _ & _ & _ & Hg).
  split; [exact H1|]. split; [vm_compute; reflexivity|].
  split; [exact (eq_trans H2 (eq_sym Hsame))|]. split; [exact Hf|exact Hg].
Defined.

Lemma managed_failure_modes_witness :
  is_Some (environ Cases.world_inside !! "REST_ENDPOINT")
  ∧ (login (Demo.platform "K" []) None (PortInt 443) None None None
       Cases.world_inside).1
    = Raise (RestAPIError "https://c.app.hopsworks.ai/hopsworks-api/api/project"
               Demo.unauthorized)
  ∧ session_left Cases.world_inside
      (login (Demo.platform "K" []) None (PortInt 443) None None None
         Cases.world_inside).2.
Proof.
  pose (run := login (Demo.platform "K" []) None (PortInt 443) None None None
                 Cases.world_inside).
  assert (H1 : is_Some (environ Cases.world_inside !! "REST_ENDPOINT")) by (by eexists).
  assert (H2 : run = (Raise (RestAPIError
                        "https://c.app.hopsworks.ai/hopsworks-api/api/project"
                        Demo.unauthorized), run.2)) by (vm_compute; reflexivity).
  split; [exact H1|]. split; [vm_compute; reflexivity|].
  destruct (managed_failure_modes (Demo.platform "K" []) None (PortInt 443) None None None
              Cases.world_inside run.2 _ H1 H2) as (u & resp & _ & [[Hc _]|(_ & _ & Hs)]).
  - vm_compute in Hc. discriminate.
  - exact Hs.
Defined.

